(** * NeoPencil API: a shallow embedding of [main.py] and [schemas.py]

    The backend is request/response code over a MongoDB database.  The
    embedding keeps that shape:

    - [Bson]: ObjectIds with their 24-digit hexadecimal text form
      ([str(oid)] and [ObjectId(s)] of the [bson] package);
    - the schema classes of [schemas.py] as records, one module per class,
      with the [Field] constraints as validators;
    - [Database]: the store as a record of collections, the handler monad
      (state that survives a raised exception, as in Python), and the
      pymongo queries the handlers issue;
    - [Main]: the endpoints of [main.py], written statement by statement.

    Numbers are as the code has them: [float] is IEEE binary64 (Rocq's
    primitive floats), [int] is [Z]. *)

From Stdlib Require Import ZArith NArith List String Ascii Bool Lia Floats.
Import ListNotations.

Local Open Scope string_scope.

(** ** ObjectIds *)

Module Bson.

(** The bytes of an ObjectId, as one number.  A genuine ObjectId has
    twelve bytes: it is their big-endian value, below [oid_bound].
    [ObjectId(s)] can also build an object of fewer bytes (see
    [ObjectId_of_str]); the object of [12 - j] bytes of big-endian value
    [v] is the number [oid_bound * j + v], which no genuine ObjectId is. *)
Definition ObjectId := N.

Definition oid_bound : N := (16 ^ 24)%N.

Definition hex_digit (n : N) : ascii :=
  match n with
  | 0%N => "0" | 1%N => "1" | 2%N => "2" | 3%N => "3"
  | 4%N => "4" | 5%N => "5" | 6%N => "6" | 7%N => "7"
  | 8%N => "8" | 9%N => "9" | 10%N => "a" | 11%N => "b"
  | 12%N => "c" | 13%N => "d" | 14%N => "e" | _ => "f"
  end%char.

(** [hex_digits k n acc]: the [k] low hexadecimal digits of [n], most
    significant first, in front of [acc]. *)
Fixpoint hex_digits (k : nat) (n : N) (acc : string) : string :=
  match k with
  | O => acc
  | S k' => hex_digits k' (n / 16)%N (String (hex_digit (n mod 16)%N) acc)
  end.

(** [str(oid)]: 24 lowercase hexadecimal digits. *)
Definition oid_str (o : ObjectId) : string := hex_digits 24 o "".

Definition hex_value (c : ascii) : option N :=
  let n := N_of_ascii c in
  if (48 <=? n)%N && (n <=? 57)%N then Some (n - 48)%N
  else if (97 <=? n)%N && (n <=? 102)%N then Some (n - 87)%N
  else if (65 <=? n)%N && (n <=? 70)%N then Some (n - 55)%N
  else None.

(** [Py_ISSPACE]: the ASCII whitespace [bytes.fromhex] skips. *)
Definition is_space (c : ascii) : bool :=
  let n := N_of_ascii c in
  ((9 <=? n)%N && (n <=? 13)%N) || (n =? 32)%N.

(** [bytes.fromhex(s)]: whitespace is skipped in front of a byte, a byte
    is two hexadecimal digits with nothing between them; [count] bytes
    of big-endian value [acc] were read so far.  [None] where Python
    raises [ValueError]. *)
Fixpoint fromhex (s : string) (count : nat) (acc : N) {struct s} : option (nat * N) :=
  match s with
  | EmptyString => Some (count, acc)
  | String c s' =>
      if is_space c then fromhex s' count acc
      else
        match hex_value c, s' with
        | Some hi, String c' s'' =>
            match hex_value c' with
            | Some lo => fromhex s'' (S count) (256 * acc + 16 * hi + lo)%N
            | None => None
            end
        | _, _ => None
        end
  end.

(** [ObjectId(s)] for a [str] argument: bson asks for 24 characters and
    takes [bytes.fromhex(s)] as the bytes of the object, so a text of 24
    hexadecimal digits of either case gives a genuine ObjectId, and a
    text of 24 characters with whitespace among its bytes gives an object
    of fewer than twelve bytes.  [None] where bson raises [InvalidId]. *)
Definition ObjectId_of_str (s : string) : option ObjectId :=
  if Nat.eqb (String.length s) 24 then
    match fromhex s 0 0%N with
    | Some (count, value) => Some (oid_bound * N.of_nat (12 - count) + value)%N
    | None => None
    end
  else None.

(** [ObjectId.is_valid(s)]. *)
Definition is_valid (s : string) : bool :=
  match ObjectId_of_str s with Some _ => true | None => false end.

End Bson.

Import Bson.

(** ** Python numbers *)

(** The conversion Python applies to an [int] operand of a [float]
    operation: the nearest binary64 value, ties to even.  Stored quantities
    are BSON integers of at most 64 bits, far below the magnitude at which
    Python raises [OverflowError], so the conversion is total here. *)
Definition float_of_int (z : Z) : float :=
  SF2Prim (binary_normalize prec emax z 0 false).

(** The [ge=0] constraint of a pydantic [float] field ([nan] fails it). *)
Definition float_ge0 (x : float) : bool := (0 <=? x)%float.

(** ** Exceptions *)

Inductive exn : Type :=
| HTTPException (status_code : Z) (detail : string)
| RequestValidationError (fields : list string)
| ValidationError (model : string) (fields : list string)
| InvalidId (s : string).

(** ** schemas.py *)

Module Product.
Record t : Type := mk {
  slug : string;
  title : string;
  description : string;
  base_price : float;
  colors : list string;
  textures : list string;
  features : list string;
  images : list string;
  in_stock : bool;
  inventory : Z
}.

(** [base_price: float = Field(..., ge=0)], the one constrained field. *)
Definition errors (p : t) : list string :=
  if float_ge0 (base_price p) then [] else ["base_price"].
End Product.

Module CartItem.
Record t : Type := mk {
  user_id : string;
  product_id : string;
  quantity : Z;
  color : option string;
  texture : option string;
  selected_features : list string;
  unit_price : float
}.

(** [quantity: int = Field(1, ge=1)] and [unit_price: float = Field(..., ge=0)]:
    the fields that fail their constraint, in declaration order. *)
Definition errors (c : t) : list string :=
  (if (1 <=? quantity c)%Z then [] else ["quantity"])
  ++ (if float_ge0 (unit_price c) then [] else ["unit_price"]).

(** The constructor of the model: it raises [ValidationError] when some
    field fails. *)
Definition validate (c : t) : exn + t :=
  match errors c with
  | [] => inr c
  | fields => inl (ValidationError "CartItem" fields)
  end.
End CartItem.

Module Order.
Inductive status : Type := pending | paid | shipped | delivered | cancelled.

(** [items: List[Dict]] holds the cart rows without their [_id], that is
    the fields of a [CartItem]; the two optional [Dict]/[str] fields are
    never set by any endpoint. *)
Record t : Type := mk {
  user_id : string;
  items : list CartItem.t;
  total_amount : float;
  order_status : status;
  subscription_id : option string;
  shipping_address : option (list (string * string));
  payment_ref : option string
}.
End Order.

Module Subscription.
Inductive plan : Type := monthly | quarterly | yearly.
Inductive status : Type := active | paused | cancelled.

Record t : Type := mk {
  user_id : string;
  product_id : string;
  sub_plan : plan;
  sub_status : status;
  refill_quantity : Z
}.

(** [plan: Literal["monthly", "quarterly", "yearly"]]. *)
Definition plan_of_string (s : string) : option plan :=
  if String.eqb s "monthly" then Some monthly
  else if String.eqb s "quarterly" then Some quarterly
  else if String.eqb s "yearly" then Some yearly
  else None.

(** The constructor as [create_subscription] calls it: [plan] arrives as a
    [str], [status] takes its default, [refill_quantity] has [ge=1]; the
    failing fields are reported in declaration order. *)
Definition errors (plan_s : string) (refill : Z) : list string :=
  (match plan_of_string plan_s with Some _ => [] | None => ["plan"] end)
  ++ (if (1 <=? refill)%Z then [] else ["refill_quantity"]).

Definition validate (user product plan_s : string) (refill : Z) : exn + t :=
  match plan_of_string plan_s, errors plan_s refill with
  | Some p, [] => inr (mk user product p active refill)
  | _, fields => inl (ValidationError "Subscription" fields)
  end.
End Subscription.

(** ** The document store *)

Module Database.

(** A stored product.  [main.py] reads [base_price], [inventory] and
    [in_stock] with [prod.get(field, default)], so a stored product may
    lack any of the three; the other fields are only copied. *)
Module ProductDoc.
Record t : Type := mk {
  _id : ObjectId;
  slug : string;
  title : string;
  description : string;
  base_price : option float;
  colors : list string;
  textures : list string;
  features : list string;
  images : list string;
  in_stock : option bool;
  inventory : option Z
}.

(** The document written for a [Product] instance: every field present. *)
Definition of_model (oid : ObjectId) (p : Product.t) : t :=
  mk oid (Product.slug p) (Product.title p) (Product.description p)
     (Some (Product.base_price p)) (Product.colors p) (Product.textures p)
     (Product.features p) (Product.images p)
     (Some (Product.in_stock p)) (Some (Product.inventory p)).

Definition set_inventory (v : option Z) (p : t) : t :=
  mk (_id p) (slug p) (title p) (description p) (base_price p) (colors p)
     (textures p) (features p) (images p) (in_stock p) v.
End ProductDoc.

(** A stored row of the other collections: the fields of the model and
    the [_id] the store gave it.  [main.py] reads these rows with
    [it["field"]]. *)
Record Doc (A : Type) : Type := mkDoc { _id : ObjectId; body : A }.
Arguments mkDoc {A} _ _.
Arguments _id {A} _.
Arguments body {A} _.

(** [db]: one list per collection, in insertion order, and the source of
    fresh ObjectIds. *)
Record DB : Type := mkDB {
  product : list ProductDoc.t;
  cartitem : list (Doc CartItem.t);
  order : list (Doc Order.t);
  subscription : list (Doc Subscription.t);
  next_oid : ObjectId
}.

(** A collection of [db]: how a model instance becomes a document, and
    where the documents live. *)
Record Collection (A D : Type) : Type := mkCollection {
  name : string;
  to_doc : ObjectId -> A -> D;
  docs : DB -> list D;
  set_docs : list D -> DB -> DB
}.
Arguments name {A D} _.
Arguments to_doc {A D} _ _ _.
Arguments docs {A D} _ _.
Arguments set_docs {A D} _ _ _.

Definition product_coll : Collection Product.t ProductDoc.t :=
  mkCollection _ _ "product" ProductDoc.of_model product
    (fun l d => mkDB l (cartitem d) (order d) (subscription d) (next_oid d)).

Definition cartitem_coll : Collection CartItem.t (Doc CartItem.t) :=
  mkCollection _ _ "cartitem" mkDoc cartitem
    (fun l d => mkDB (product d) l (order d) (subscription d) (next_oid d)).

Definition order_coll : Collection Order.t (Doc Order.t) :=
  mkCollection _ _ "order" mkDoc order
    (fun l d => mkDB (product d) (cartitem d) l (subscription d) (next_oid d)).

Definition subscription_coll : Collection Subscription.t (Doc Subscription.t) :=
  mkCollection _ _ "subscription" mkDoc subscription
    (fun l d => mkDB (product d) (cartitem d) (order d) l (next_oid d)).

(** *** The handler monad

    A handler reads and writes [db] and may raise.  What it wrote before
    raising stays written: nothing in [main.py] opens a transaction. *)
Definition M (A : Type) : Type := DB -> (exn + A) * DB.

Definition ret {A} (a : A) : M A := fun d => (inr a, d).

Definition bind {A B} (m : M A) (k : A -> M B) : M B :=
  fun d =>
    match m d with
    | (inr a, d') => k a d'
    | (inl e, d') => (inl e, d')
    end.

Definition raise {A} (e : exn) : M A := fun d => (inl e, d).

(** [try: m  except Exception: h]. *)
Definition try_except {A} (m : M A) (h : exn -> M A) : M A :=
  fun d =>
    match m d with
    | (inr a, d') => (inr a, d')
    | (inl e, d') => h e d'
    end.

(** A constructor or conversion that may raise and touches no state. *)
Definition lift {A} (r : exn + A) : M A := fun d => (r, d).

(** [for x in l: f(x)]. *)
Fixpoint for_each {A} (l : list A) (f : A -> M unit) : M unit :=
  match l with
  | [] => ret tt
  | x :: l' => bind (f x) (fun _ => for_each l' f)
  end.

(** *** pymongo queries *)

(** [coll.find_one(filter)]: the first matching document, or [None]. *)
Definition find_one {A D} (c : Collection A D) (flt : D -> bool) : M (option D) :=
  fun d => (inr (List.find flt (docs c d)), d).

(** [list(coll.find(filter))]: the matching documents, in store order. *)
Definition find {A D} (c : Collection A D) (flt : D -> bool) : M (list D) :=
  fun d => (inr (List.filter flt (docs c d)), d).

Fixpoint update_first {D} (flt : D -> bool) (upd : D -> D) (l : list D) : list D :=
  match l with
  | [] => []
  | x :: l' => if flt x then upd x :: l' else x :: update_first flt upd l'
  end.

(** [coll.update_one(filter, update)]: the first matching document is
    updated; with no match nothing happens (and nothing is raised). *)
Definition update_one {A D} (c : Collection A D) (flt : D -> bool) (upd : D -> D)
  : M unit :=
  fun d => (inr tt, set_docs c (update_first flt upd (docs c d)) d).

(** [coll.delete_many(filter)]. *)
Definition delete_many {A D} (c : Collection A D) (flt : D -> bool) : M unit :=
  fun d => (inr tt, set_docs c (List.filter (fun x => negb (flt x)) (docs c d)) d).

(** [{"$inc": {"inventory": delta}}]: MongoDB adds [delta] to the field,
    and creates the field with value [delta] when the document lacks it. *)
Definition inc_inventory (delta : Z) (p : ProductDoc.t) : ProductDoc.t :=
  ProductDoc.set_inventory
    (Some (match ProductDoc.inventory p with
           | Some n => n + delta
           | None => delta
           end)%Z) p.

(** Filters: [{"slug": s}], [{"_id": oid}], [{"user_id": u}]. *)
Definition slug_is (s : string) (p : ProductDoc.t) : bool :=
  String.eqb (ProductDoc.slug p) s.

Definition id_is (oid : ObjectId) (p : ProductDoc.t) : bool :=
  N.eqb (ProductDoc._id p) oid.

Definition user_id_is (u : string) (r : Doc CartItem.t) : bool :=
  String.eqb (CartItem.user_id (body r)) u.

(** Modelled from the spec: [create_document] of [database.py], which is
    not among the sources.  The spec's data model has every entity
    "a document in its own collection, identified by a generated unique
    id", and its store access is "generic create/find/update operations
    against named collections": the instance is appended to its
    collection under a fresh ObjectId, whose text form is returned. *)
Definition create_document {A D} (c : Collection A D) (data : A) : M string :=
  fun d =>
    let oid := next_oid d in
    let d' := set_docs c (docs c d ++ [to_doc c oid data]) d in
    (inr (oid_str oid),
     mkDB (product d') (cartitem d') (order d') (subscription d') (N.succ oid)).

End Database.

Import Database.

Declare Scope handler_scope.
Delimit Scope handler_scope with handler.
Notation "x <- m ;; k" := (bind m (fun x => k))
  (at level 100, m at next level, right associativity) : handler_scope.
Notation "m ;;; k" := (bind m (fun _ => k))
  (at level 100, right associativity) : handler_scope.

(** ** main.py *)

Module Main.

Local Open Scope list_scope.
Local Open Scope handler_scope.

(** The JSON bodies the endpoints answer with. *)
Inductive response : Type :=
| Ok                                      (* {"ok": True} *)
| OkOrder (order_id : string)             (* {"ok": True, "order_id": ...} *)
| OkSubscription (subscription_id : string)
| Inventory (inventory : Z) (in_stock : bool).

(** [create_product_endpoint].  FastAPI hands the handler a [Product]
    that already passed the model's validation. *)
Definition create_product_endpoint (product : Product.t) : M response :=
  existing <- find_one product_coll (slug_is (Product.slug product)) ;;
  match existing with
  | Some _ => raise (HTTPException 400 "Slug already exists")
  | None =>
      create_document product_coll product ;;;
      ret Ok
  end.

Module AddToCart.
Record t : Type := mk {
  user_id : string;
  product_slug : string;
  quantity : Z;
  color : option string;
  texture : option string;
  selected_features : option (list string)
}.
End AddToCart.

(** [add_to_cart]. *)
Definition add_to_cart (body : AddToCart.t) : M response :=
  prod <- find_one product_coll (slug_is (AddToCart.product_slug body)) ;;
  match prod with
  | None => raise (HTTPException 404 "Product not found")
  | Some prod =>
      let price :=
        match ProductDoc.base_price prod with
        | Some p => p
        | None => 0%float
        end in
      doc <- lift (CartItem.validate
               (CartItem.mk
                  (AddToCart.user_id body)
                  (oid_str (ProductDoc._id prod))
                  (AddToCart.quantity body)
                  (AddToCart.color body)
                  (AddToCart.texture body)
                  (match AddToCart.selected_features body with
                   | Some l => l
                   | None => []
                   end)
                  price)) ;;
      create_document cartitem_coll doc ;;;
      ret Ok
  end.

Module CheckoutRequest.
Record t : Type := mk { user_id : string }.
End CheckoutRequest.

(** The first loop of [checkout]: [total] and [snapshot], row by row. *)
Definition total_and_snapshot (items : list (Doc CartItem.t))
  : float * list CartItem.t :=
  fold_left
    (fun '(total, snapshot) it =>
       ((total + CartItem.unit_price (Database.body it)
                 * float_of_int (CartItem.quantity (Database.body it)))%float,
        snapshot ++ [Database.body it]))
    items (0%float, []).

(** The body of the second loop of [checkout], inside its [try]. *)
Definition decrement_inventory (it : Doc CartItem.t) : M unit :=
  try_except
    (oid <- lift (match ObjectId_of_str (CartItem.product_id (Database.body it)) with
                  | Some oid => inr oid
                  | None => inl (InvalidId (CartItem.product_id (Database.body it)))
                  end) ;;
     update_one product_coll (id_is oid)
       (inc_inventory (- CartItem.quantity (Database.body it))))
    (fun _ => ret tt).

(** [checkout]. *)
Definition checkout (req : CheckoutRequest.t) : M response :=
  items <- find cartitem_coll (user_id_is (CheckoutRequest.user_id req)) ;;
  match items with
  | [] => raise (HTTPException 400 "Cart is empty")
  | _ :: _ =>
      let '(total, snapshot) := total_and_snapshot items in
      let order :=
        Order.mk (CheckoutRequest.user_id req) snapshot total
                 Order.pending None None None in
      order_id <- create_document order_coll order ;;
      for_each items decrement_inventory ;;;
      delete_many cartitem_coll (user_id_is (CheckoutRequest.user_id req)) ;;;
      ret (OkOrder order_id)
  end.

Module SubscriptionRequest.
Record t : Type := mk {
  user_id : string;
  product_slug : string;
  plan : string;
  refill_quantity : Z
}.
End SubscriptionRequest.

(** [create_subscription]. *)
Definition create_subscription (req : SubscriptionRequest.t) : M response :=
  prod <- find_one product_coll (slug_is (SubscriptionRequest.product_slug req)) ;;
  match prod with
  | None => raise (HTTPException 404 "Product not found")
  | Some prod =>
      sub <- lift (Subscription.validate
               (SubscriptionRequest.user_id req)
               (oid_str (ProductDoc._id prod))
               (SubscriptionRequest.plan req)
               (SubscriptionRequest.refill_quantity req)) ;;
      sub_id <- create_document subscription_coll sub ;;
      ret (OkSubscription sub_id)
  end.

(** [get_inventory]. *)
Definition get_inventory (slug : string) : M response :=
  prod <- find_one product_coll (slug_is slug) ;;
  match prod with
  | None => raise (HTTPException 404 "Product not found")
  | Some prod =>
      ret (Inventory
             (match ProductDoc.inventory prod with Some n => n | None => 0%Z end)
             (match ProductDoc.in_stock prod with Some b => b | None => true end))
  end.

End Main.

Import Main.

(** ** The application: requests served one after the other *)

Module App.

Inductive request : Type :=
| PostProducts (product : Product.t)
| PostCartAdd (body : AddToCart.t)
| PostCheckout (req : CheckoutRequest.t)
| PostSubscriptions (req : SubscriptionRequest.t)
| GetInventory (slug : string).

(** The routes of [app] that write to the store or that the claims are
    about; the remaining ones ([GET /], [GET /api/products],
    [GET /api/cart/{user_id}], [GET /test]) only read.  FastAPI validates
    a [Product] body against its model before the handler runs; the other
    request models carry no constraint. *)
Definition handle (r : request) : M response :=
  match r with
  | PostProducts product =>
      match Product.errors product with
      | [] => create_product_endpoint product
      | fields => raise (RequestValidationError fields)
      end
  | PostCartAdd body => add_to_cart body
  | PostCheckout req => checkout req
  | PostSubscriptions req => create_subscription req
  | GetInventory slug => get_inventory slug
  end.

(** The store after a sequence of requests. *)
Definition serve (reqs : list request) (d : DB) : DB :=
  fold_left (fun d r => snd (handle r d)) reqs d.

Definition empty_db : DB := mkDB [] [] [] [] 0%N.

End App.

(** ** Vocabulary of the specification *)

(** [unit_price × quantity] of one cart item. *)
Definition line_total (c : CartItem.t) : float :=
  (CartItem.unit_price c * float_of_int (CartItem.quantity c))%float.

(** [Σ(unit_price × quantity)] over the items, added up in their order
    from [0.0]. *)
Definition sum_line_totals (items : list CartItem.t) : float :=
  fold_left (fun acc c => (acc + line_total c)%float) items 0%float.

(** The product's base price as [add_to_cart] reads it. *)
Definition price_of (p : ProductDoc.t) : float :=
  match ProductDoc.base_price p with Some x => x | None => 0%float end.

(** The inventory count of a stored product, a missing field counting 0. *)
Definition stock (p : ProductDoc.t) : Z :=
  match ProductDoc.inventory p with Some n => n | None => 0%Z end.

(** Does the cart row reference the product with this [_id]? *)
Definition references (oid : ObjectId) (it : Doc CartItem.t) : bool :=
  match ObjectId_of_str (CartItem.product_id (body it)) with
  | Some o => N.eqb o oid
  | None => false
  end.

(** The total quantity the rows order of the product with this [_id]. *)
Definition referenced_quantity (oid : ObjectId) (items : list (Doc CartItem.t)) : Z :=
  fold_right
    (fun it acc => if references oid it then (CartItem.quantity (body it) + acc)%Z else acc)
    0%Z items.

(** What one turn of the decrement loop does to the product collection: a
    row whose [product_id] is no ObjectId leaves it as it is. *)
Definition apply_decrement (prods : list ProductDoc.t) (it : Doc CartItem.t)
  : list ProductDoc.t :=
  match ObjectId_of_str (CartItem.product_id (body it)) with
  | Some oid =>
      update_first (id_is oid) (inc_inventory (- CartItem.quantity (body it))) prods
  | None => prods
  end.

(** The constraints of the [CartItem] schema, on a stored row. *)
Definition row_valid (r : Doc CartItem.t) : Prop :=
  (1 <= CartItem.quantity (body r))%Z /\ float_ge0 (CartItem.unit_price (body r)) = true.

Definition cart_rows_valid (d : DB) : Prop := Forall row_valid (cartitem d).

(** The row [add_to_cart] builds for a request and the product it found. *)
Definition new_cart_item (b : AddToCart.t) (prod : ProductDoc.t) : CartItem.t :=
  CartItem.mk (AddToCart.user_id b) (oid_str (ProductDoc._id prod))
    (AddToCart.quantity b) (AddToCart.color b) (AddToCart.texture b)
    (match AddToCart.selected_features b with Some l => l | None => [] end)
    (price_of prod).

(** ** Sample data: the example of the specification's testable properties *)

Module Sample.
Import App.

Definition pencil : Product.t :=
  Product.mk "pencil-x1" "Pencil X1" "A pencil" 10%float [] [] [] [] true 100%Z.

Definition case_y2 : Product.t :=
  Product.mk "case-y2" "Case Y2" "A case" 5%float [] [] [] [] true 100%Z.

Definition add_pencil : AddToCart.t :=
  AddToCart.mk "u1" "pencil-x1" 2%Z None None None.

Definition add_case : AddToCart.t :=
  AddToCart.mk "u1" "case-y2" 1%Z None None None.

(** The catalog holds the two products. *)
Definition db_catalog : DB :=
  Eval vm_compute in serve [PostProducts pencil; PostProducts case_y2] empty_db.

(** User [u1] has put two pencils and one case in the cart. *)
Definition db_cart : DB :=
  Eval vm_compute in serve [PostCartAdd add_pencil; PostCartAdd add_case] db_catalog.

(** The same cart after the catalog prices were raised to 99 and 77. *)
Definition db_repriced : DB :=
  mkDB
    (map (fun p =>
            ProductDoc.mk (ProductDoc._id p) (ProductDoc.slug p) (ProductDoc.title p)
              (ProductDoc.description p)
              (Some (if String.eqb (ProductDoc.slug p) "pencil-x1" then 99 else 77)%float)
              (ProductDoc.colors p) (ProductDoc.textures p) (ProductDoc.features p)
              (ProductDoc.images p) (ProductDoc.in_stock p) (ProductDoc.inventory p))
         (product db_cart))
    (cartitem db_cart) (order db_cart) (subscription db_cart) (next_oid db_cart).

(** A product document that lacks [base_price], [in_stock] and [inventory]. *)
Definition bare_product : ProductDoc.t :=
  ProductDoc.mk 7%N "bare" "Bare" "No optional field" None [] [] [] [] None None.

Definition db_bare : DB := mkDB [bare_product] [] [] [] 8%N.

(** A cart of three rows for [u1] and one for [u2]: the second row of
    [u1] names a product that is not in the catalog, the third carries a
    [product_id] that is no ObjectId. *)
Definition db_dangling : DB :=
  mkDB (product db_catalog)
    [ mkDoc 2%N (CartItem.mk "u1" (oid_str 0%N) 2%Z None None [] 10%float);
      mkDoc 3%N (CartItem.mk "u1" (oid_str 500%N) 4%Z None None [] 3%float);
      mkDoc 4%N (CartItem.mk "u1" "deleted" 1%Z None None [] 5%float);
      mkDoc 5%N (CartItem.mk "u2" (oid_str 1%N) 1%Z None None [] 5%float) ]
    [] [] 6%N.

End Sample.

(** ** main.py: the endpoints that only read, and [ObjectIdStr] *)

Module MainViews.

Local Open Scope list_scope.
Local Open Scope handler_scope.

Inductive value_error : Type := ValueError (msg : string).

(** [ObjectIdStr.validate], for a [str] argument: [str(v)] is then [v]. *)
Definition ObjectIdStr_validate (v : string) : value_error + string :=
  if negb (is_valid v) then inl (ValueError "Invalid ObjectId")
  else inr v.

(** [read_root]: the text of the [message] field. *)
Definition read_root : M string := ret "NeoPencil backend running".

(** [{k: v for k, v in p.items() if k != "_id"}] of a stored product. *)
Module ProductFields.
Record t : Type := mk {
  slug : string;
  title : string;
  description : string;
  base_price : option float;
  colors : list string;
  textures : list string;
  features : list string;
  images : list string;
  in_stock : option bool;
  inventory : option Z
}.

Definition of_doc (p : ProductDoc.t) : t :=
  mk (ProductDoc.slug p) (ProductDoc.title p) (ProductDoc.description p)
     (ProductDoc.base_price p) (ProductDoc.colors p) (ProductDoc.textures p)
     (ProductDoc.features p) (ProductDoc.images p)
     (ProductDoc.in_stock p) (ProductDoc.inventory p).

(** The [Product] built from these fields as keyword arguments:
    [base_price] is required and has [ge=0];
    [in_stock] and [inventory] take the defaults of the model, [True] and
    [100], when the document lacks them. *)
Definition to_model (f : t) : exn + Product.t :=
  match base_price f with
  | None => inl (ValidationError "Product" ["base_price"])
  | Some price =>
      if float_ge0 price then
        inr (Product.mk (slug f) (title f) (description f) price
               (colors f) (textures f) (features f) (images f)
               (match in_stock f with Some b => b | None => true end)
               (match inventory f with Some n => n | None => 100%Z end))
      else inl (ValidationError "Product" ["base_price"])
  end.
End ProductFields.

(** [coll.find().limit(n)]: the first [n] documents, in store order. *)
Definition find_limit {A D} (c : Collection A D) (n : nat) : M (list D) :=
  fun d => (inr (firstn n (docs c d)), d).

(** [[f(x) for x in l]] where [f] may raise: the first failure ends the
    comprehension. *)
Fixpoint comprehension {A B} (f : A -> exn + B) (l : list A) : exn + list B :=
  match l with
  | [] => inr []
  | x :: l' =>
      match f x with
      | inl e => inl e
      | inr y =>
          match comprehension f l' with
          | inl e => inl e
          | inr ys => inr (y :: ys)
          end
      end
  end.

(** [list_products]. *)
Definition list_products : M (list Product.t) :=
  products <- find_limit product_coll 50 ;;
  lift (comprehension (fun p => ProductFields.to_model (ProductFields.of_doc p)) products).

(** An element of the list [get_cart] answers with: the row with [id] in
    place of [_id], and the joined [product] when one was found. *)
Module CartEntry.
Record t : Type := mk {
  id : string;
  item : CartItem.t;
  product : option ProductFields.t
}.
End CartEntry.

(** [result = []; for x in l: result.append(f(x))] where [f] reads the
    store and may raise. *)
Fixpoint collect {A B} (f : A -> M B) (l : list A) : M (list B) :=
  match l with
  | [] => ret []
  | x :: l' =>
      y <- f x ;;
      ys <- collect f l' ;;
      ret (y :: ys)
  end.

(** The body of the loop of [get_cart].  [ObjectId(...)] is not inside a
    [try] here. *)
Definition join_product (it : Doc CartItem.t) : M CartEntry.t :=
  oid <- lift (match ObjectId_of_str (CartItem.product_id (Database.body it)) with
               | Some oid => inr oid
               | None => inl (InvalidId (CartItem.product_id (Database.body it)))
               end) ;;
  prod <- find_one product_coll (id_is oid) ;;
  ret (CartEntry.mk (oid_str (Database._id it)) (Database.body it)
         (match prod with
          | Some p => Some (ProductFields.of_doc p)
          | None => None
          end)).

(** [get_cart]. *)
Definition get_cart (user_id : string) : M (list CartEntry.t) :=
  items <- find cartitem_coll (user_id_is user_id) ;;
  collect join_product items.

End MainViews.

Import MainViews.

(** ** Every route of the application *)

Module Api.

Local Open Scope handler_scope.

Inductive request : Type :=
| Core (r : App.request)
| GetRoot
| GetProducts
| GetCart (user_id : string).

Inductive reply : Type :=
| Reply (r : response)
| Message (message : string)
| Products (products : list Product.t)
| Cart (entries : list CartEntry.t).

(** The routes of [App] and the three that only read ([GET /test], which
    reports on the environment, is left out). *)
Definition handle (r : request) : M reply :=
  match r with
  | Core r => x <- App.handle r ;; ret (Reply x)
  | GetRoot => m <- read_root ;; ret (Message m)
  | GetProducts => l <- list_products ;; ret (Products l)
  | GetCart user_id => l <- get_cart user_id ;; ret (Cart l)
  end.

Definition serve (reqs : list request) (d : DB) : DB :=
  fold_left (fun d r => snd (handle r d)) reqs d.

End Api.

(** ** Vocabulary of the further properties *)

(** A stored product that [list_products] can show: it has a base price,
    and the price passes [ge=0]. *)
Definition listable (p : ProductDoc.t) : Prop :=
  exists price, ProductDoc.base_price p = Some price /\ float_ge0 price = true.

Definition catalog_listable (d : DB) : Prop := Forall listable (product d).

(** A stored product without its inventory count. *)
Definition frozen (p : ProductDoc.t) : ProductDoc.t :=
  ProductDoc.set_inventory None p.

(** The row a call of [add_to_cart] stores in [d], if it stores one. *)
Definition item_for (d : DB) (b : AddToCart.t) : list CartItem.t :=
  match List.find (slug_is (AddToCart.product_slug b)) (product d) with
  | Some prod =>
      match CartItem.errors (new_cart_item b prod) with
      | [] => [new_cart_item b prod]
      | _ :: _ => []
      end
  | None => []
  end.

(** The entry [get_cart] builds for a row, over the product collection
    [prods]; the error is the [InvalidId] of [ObjectId(...)]. *)
Definition joined (prods : list ProductDoc.t) (it : Doc CartItem.t) : exn + CartEntry.t :=
  match ObjectId_of_str (CartItem.product_id (body it)) with
  | Some oid =>
      inr (CartEntry.mk (oid_str (_id it)) (body it)
             (option_map ProductFields.of_doc (List.find (id_is oid) prods)))
  | None => inl (InvalidId (CartItem.product_id (body it)))
  end.

(** The [product_id] of the row is the text of some ObjectId. *)
Definition row_id_valid (r : Doc CartItem.t) : Prop :=
  is_valid (CartItem.product_id (body r)) = true.

(** The texts [bytes.fromhex] reads: bytes of two hexadecimal digits
    each, with ASCII whitespace allowed in front of a byte and at the
    end, never between the two digits of a byte. *)
Inductive hex_bytes : string -> Prop :=
| hex_bytes_end : hex_bytes EmptyString
| hex_bytes_space (c : ascii) (s : string) :
    is_space c = true -> hex_bytes s -> hex_bytes (String c s)
| hex_bytes_byte (hi lo : ascii) (s : string) :
    hex_value hi <> None -> hex_value lo <> None -> hex_bytes s ->
    hex_bytes (String hi (String lo s)).

(** Twenty-four spaces. *)
Definition blank24 : string :=
  Eval compute in
    (fix rep (n : nat) : string :=
       match n with O => EmptyString | S n' => String " "%char (rep n') end) 24%nat.

(** More sample data. *)
Module Sample2.

(** A catalog whose second product lacks [inventory], and a cart with one
    row for each product. *)
Definition db_partial : DB :=
  mkDB
    [ ProductDoc.of_model 0%N Sample.pencil;
      ProductDoc.mk 1%N "case-y2" "Case Y2" "A case" (Some 5%float)
        [] [] [] [] (Some true) None ]
    [ mkDoc 2%N (CartItem.mk "u1" (oid_str 0%N) 2%Z None None [] 10%float);
      mkDoc 3%N (CartItem.mk "u1" (oid_str 1%N) 1%Z None None [] 5%float) ]
    [] [] 4%N.

(** A cart whose two rows reference no product of the catalog: one names
    an id the catalog does not have, the other carries no ObjectId. *)
Definition db_orphans : DB :=
  mkDB (product Sample.db_catalog)
    [ mkDoc 2%N (CartItem.mk "u1" (oid_str 500%N) 4%Z None None [] 3%float);
      mkDoc 3%N (CartItem.mk "u1" "deleted" 1%Z None None [] 5%float) ]
    [] [] 4%N.

(** A catalog of fifty products, with slugs and ids 0 to 49. *)
Definition db_fifty : DB :=
  mkDB
    (map (fun n =>
            ProductDoc.of_model (N.of_nat n)
              (Product.mk (oid_str (N.of_nat n)) "Item" "One of fifty" 1%float
                 [] [] [] [] true 10%Z))
         (seq 0 50))
    [] [] [] 50%N.

End Sample2.

(** * Properties *)

Local Open Scope list_scope.

(** ** The text form of an ObjectId reads back *)

Module BsonFacts.

Lemma hex_value_hex_digit (n : N) :
  (n < 16)%N -> hex_value (hex_digit n) = Some n.
Proof.
  intros Hn.
  destruct n as [|p]; [reflexivity|].
  do 4 (destruct p as [p|p|]; try reflexivity; try (exfalso; lia)).
Qed.

Lemma length_hex_digits (k : nat) :
  forall n acc, String.length (hex_digits k n acc) = (k + String.length acc)%nat.
Proof.
  induction k as [|k IH]; intros n acc; simpl.
  - reflexivity.
  - rewrite IH. simpl. lia.
Qed.

Lemma is_space_hex_digit (n : N) : is_space (hex_digit n) = false.
Proof.
  destruct n as [|p]; [reflexivity|].
  do 4 (destruct p as [p|p|]; try reflexivity).
Qed.

(** Reading back [2 * k] digits written by [hex_digits]: [k] bytes. *)
Lemma fromhex_hex_digits (k : nat) :
  forall n acc count a,
    fromhex (hex_digits (2 * k) n acc) count a
    = fromhex acc (count + k)%nat (a * 256 ^ N.of_nat k + n mod 256 ^ N.of_nat k)%N.
Proof.
  induction k as [|k IH]; intros n acc count a.
  - cbn [Nat.mul hex_digits]. f_equal; [lia|].
    change (256 ^ N.of_nat 0)%N with 1%N. rewrite N.mod_1_r. lia.
  - replace (2 * S k)%nat with (S (S (2 * k))) by lia.
    cbn [hex_digits]. rewrite IH. cbn [fromhex].
    rewrite !is_space_hex_digit, !hex_value_hex_digit by (apply N.mod_lt; discriminate).
    f_equal; [lia|].
    rewrite Nnat.Nat2N.inj_succ, N.pow_succ_r'.
    rewrite (N.Div0.mod_mul_r n 256 (256 ^ N.of_nat k)).
    assert (H1 : (n mod 256 = n mod 16 + 16 * ((n / 16) mod 16))%N)
      by (change 256%N with (16 * 16)%N; apply N.Div0.mod_mul_r).
    assert (H2 : (n / 16 / 16 = n / 256)%N)
      by (rewrite N.Div0.div_div; reflexivity).
    rewrite H1, H2. lia.
Qed.

Lemma fromhex_oid_str (o : ObjectId) :
  fromhex (oid_str o) 0 0%N = Some (12%nat, (o mod oid_bound)%N).
Proof.
  unfold oid_str. change 24%nat with (2 * 12)%nat.
  rewrite fromhex_hex_digits. cbn [fromhex Nat.add N.mul]. reflexivity.
Qed.

Lemma ObjectId_of_str_oid_str (o : ObjectId) :
  (o < oid_bound)%N -> ObjectId_of_str (oid_str o) = Some o.
Proof.
  intros Ho. unfold ObjectId_of_str.
  unfold oid_str at 1. rewrite length_hex_digits. cbn [String.length Nat.add Nat.eqb].
  rewrite fromhex_oid_str. cbn [Nat.sub N.of_nat]. f_equal.
  rewrite N.mod_small by exact Ho. lia.
Qed.

Lemma is_valid_oid_str (o : ObjectId) : is_valid (oid_str o) = true.
Proof.
  unfold is_valid, ObjectId_of_str.
  unfold oid_str at 1. rewrite length_hex_digits.
  cbn [String.length Nat.add Nat.eqb].
  rewrite fromhex_oid_str. reflexivity.
Qed.

End BsonFacts.

(** ** Queries *)

Module QueryFacts.

Lemma find_slug_none (s : string) (l : list ProductDoc.t) :
  (forall p, In p l -> ProductDoc.slug p <> s) -> List.find (slug_is s) l = None.
Proof.
  induction l as [|a l IH]; intros H; simpl.
  - reflexivity.
  - unfold slug_is at 1.
    destruct (String.eqb_spec (ProductDoc.slug a) s) as [E|_].
    + exfalso. apply (H a); [left; reflexivity | exact E].
    + apply IH. intros p Hp. apply H. right. exact Hp.
Qed.

Lemma find_slug_some (s : string) (l : list ProductDoc.t) :
  (exists p, In p l /\ ProductDoc.slug p = s) ->
  exists q, List.find (slug_is s) l = Some q.
Proof.
  intros [p [Hin Hs]].
  destruct (List.find (slug_is s) l) as [q|] eqn:E.
  - exists q. reflexivity.
  - pose proof (find_none _ _ E p Hin) as Hf.
    unfold slug_is in Hf. rewrite Hs, String.eqb_refl in Hf. discriminate.
Qed.

Lemma find_one_product (s : string) (d : DB) (r : option ProductDoc.t) :
  find_one product_coll (slug_is s) d = (inr r, d) <->
  List.find (slug_is s) (product d) = r.
Proof.
  unfold find_one. simpl. split.
  - intros H. injection H as H. exact H.
  - intros ->. reflexivity.
Qed.

End QueryFacts.

(** ** Catalog *)

Module CatalogSpec.
Import QueryFacts.

(** C6: [create_product_endpoint] fails with "Slug already exists" and
    leaves the store as it was when some stored product has the slug;
    when none has, it answers ok and appends one document under a fresh
    id, which carries every field of the product as it was sent: slug,
    title, description, base price, colors, textures, features, images,
    in_stock and inventory.  The documents stored before stay as they
    were. *)
Theorem create_product_conflict_or_insert (product : Product.t) (d : DB) :
  ((exists p, In p (Database.product d) /\ ProductDoc.slug p = Product.slug product) ->
   create_product_endpoint product d
   = (inl (HTTPException 400 "Slug already exists"), d))
  /\
  ((forall p, In p (Database.product d) -> ProductDoc.slug p <> Product.slug product) ->
   create_product_endpoint product d
   = (inr Ok,
      mkDB (Database.product d
            ++ [ProductDoc.mk (next_oid d)
                  (Product.slug product) (Product.title product)
                  (Product.description product)
                  (Some (Product.base_price product))
                  (Product.colors product) (Product.textures product)
                  (Product.features product) (Product.images product)
                  (Some (Product.in_stock product))
                  (Some (Product.inventory product))])
           (cartitem d) (order d) (subscription d) (N.succ (next_oid d)))).
Proof.
  split; intros H; unfold create_product_endpoint, bind, find_one; simpl.
  - destruct (find_slug_some _ _ H) as [q ->]. reflexivity.
  - rewrite (find_slug_none _ _ H). reflexivity.
Qed.

Lemma create_product_conflict_or_insert_witness :
  create_product_endpoint Sample.pencil Sample.db_catalog
  = (inl (HTTPException 400 "Slug already exists"), Sample.db_catalog)
  /\
  create_product_endpoint
    (Product.mk "marker-m3" "Marker M3" "A marker" 7.5%float
       ["Graphite"] ["matte"] ["tilt-sense"] ["m3.png"] false 12%Z)
    Sample.db_catalog
  = (inr Ok,
     mkDB (product Sample.db_catalog
           ++ [ProductDoc.mk 2%N "marker-m3" "Marker M3" "A marker" (Some 7.5%float)
                 ["Graphite"] ["matte"] ["tilt-sense"] ["m3.png"]
                 (Some false) (Some 12%Z)])
          [] [] [] 3%N).
Proof.
  split.
  - apply (proj1 (create_product_conflict_or_insert Sample.pencil Sample.db_catalog)).
    eexists. split; [left; reflexivity | reflexivity].
  - apply (proj2 (create_product_conflict_or_insert
                    (Product.mk "marker-m3" "Marker M3" "A marker" 7.5%float
                       ["Graphite"] ["matte"] ["tilt-sense"] ["m3.png"] false 12%Z)
                    Sample.db_catalog)).
    simpl. intros p [<-|[<-|[]]]; discriminate.
Defined.

(** C9: for a slug that resolves to a stored product, [get_inventory]
    answers with the document's [inventory] and [in_stock]; a document
    that lacks [inventory] yields 0 and one that lacks [in_stock] yields
    true, and no error is raised. *)
Theorem get_inventory_defaults (slug : string) (d : DB) (prod : ProductDoc.t) :
  find_one product_coll (slug_is slug) d = (inr (Some prod), d) ->
  exists inv stocked,
    get_inventory slug d = (inr (Inventory inv stocked), d)
    /\ (ProductDoc.inventory prod = None -> inv = 0%Z)
    /\ (ProductDoc.in_stock prod = None -> stocked = true)
    /\ (forall n, ProductDoc.inventory prod = Some n -> inv = n)
    /\ (forall b, ProductDoc.in_stock prod = Some b -> stocked = b).
Proof.
  intros H. apply find_one_product in H.
  unfold get_inventory, bind, find_one. simpl. rewrite H.
  do 2 eexists. split; [reflexivity|].
  repeat split.
  - intros ->. reflexivity.
  - intros ->. reflexivity.
  - intros n ->. reflexivity.
  - intros b ->. reflexivity.
Qed.

Lemma get_inventory_defaults_witness :
  get_inventory "bare" Sample.db_bare = (inr (Inventory 0%Z true), Sample.db_bare).
Proof.
  destruct (get_inventory_defaults "bare" Sample.db_bare Sample.bare_product eq_refl)
    as [inv [stocked [E [Hi [Hs _]]]]].
  rewrite E, (Hi eq_refl), (Hs eq_refl). reflexivity.
Defined.

End CatalogSpec.

(** ** Checkout *)

Module CheckoutFacts.

Lemma decrement_inventory_run (it : Doc CartItem.t) (d : DB) :
  decrement_inventory it d
  = (inr tt,
     mkDB (apply_decrement (product d) it) (cartitem d) (order d)
          (subscription d) (next_oid d)).
Proof.
  unfold decrement_inventory, try_except, bind, lift, update_one, apply_decrement, ret.
  destruct (ObjectId_of_str (CartItem.product_id (body it))) as [oid|]; simpl.
  - reflexivity.
  - destruct d; reflexivity.
Qed.

Lemma for_each_decrement_run (items : list (Doc CartItem.t)) :
  forall d,
    for_each items decrement_inventory d
    = (inr tt,
       mkDB (fold_left apply_decrement items (product d)) (cartitem d) (order d)
            (subscription d) (next_oid d)).
Proof.
  induction items as [|it items IH]; intros d.
  - destruct d; reflexivity.
  - cbn [for_each fold_left]. unfold bind at 1.
    rewrite decrement_inventory_run, IH. reflexivity.
Qed.

Lemma total_and_snapshot_from (items : list (Doc CartItem.t)) :
  forall total snapshot,
    fold_left
      (fun '(total, snapshot) it =>
         ((total + CartItem.unit_price (body it)
                   * float_of_int (CartItem.quantity (body it)))%float,
          snapshot ++ [body it]))
      items (total, snapshot)
    = (fold_left (fun acc c => (acc + line_total c)%float) (map body items) total,
       snapshot ++ map body items).
Proof.
  induction items as [|it items IH]; intros total snapshot; simpl.
  - rewrite app_nil_r. reflexivity.
  - rewrite IH. unfold line_total. rewrite <- app_assoc. reflexivity.
Qed.

Lemma total_and_snapshot_sum (items : list (Doc CartItem.t)) :
  total_and_snapshot items = (sum_line_totals (map body items), map body items).
Proof.
  unfold total_and_snapshot, sum_line_totals.
  rewrite total_and_snapshot_from. reflexivity.
Qed.

(** The whole of [checkout], in one equation. *)
Lemma checkout_run (req : CheckoutRequest.t) (d : DB) :
  checkout req d
  = match filter (user_id_is (CheckoutRequest.user_id req)) (cartitem d) with
    | [] => (inl (HTTPException 400 "Cart is empty"), d)
    | items =>
        (inr (OkOrder (oid_str (next_oid d))),
         mkDB (fold_left apply_decrement items (product d))
              (filter (fun r => negb (user_id_is (CheckoutRequest.user_id req) r))
                      (cartitem d))
              (order d
               ++ [mkDoc (next_oid d)
                     (Order.mk (CheckoutRequest.user_id req) (map body items)
                        (sum_line_totals (map body items))
                        Order.pending None None None)])
              (subscription d) (N.succ (next_oid d)))
    end.
Proof.
  unfold checkout, bind at 1, find. cbn [docs cartitem_coll].
  destruct (filter (user_id_is (CheckoutRequest.user_id req)) (cartitem d))
    as [|it items] eqn:E.
  - reflexivity.
  - rewrite total_and_snapshot_sum.
    unfold bind, create_document, delete_many, ret. cbn -[for_each fold_left].
    rewrite for_each_decrement_run. reflexivity.
Qed.

Lemma update_first_ids (oid : ObjectId) (delta : Z) (ps : list ProductDoc.t) :
  map ProductDoc._id (update_first (id_is oid) (inc_inventory delta) ps)
  = map ProductDoc._id ps.
Proof.
  induction ps as [|p ps IH]; simpl.
  - reflexivity.
  - destruct (id_is oid p); simpl; [reflexivity | rewrite IH; reflexivity].
Qed.

Lemma stock_inc_inventory (delta : Z) (p : ProductDoc.t) :
  stock (inc_inventory delta p) = (stock p + delta)%Z.
Proof.
  unfold stock, inc_inventory. simpl.
  destruct (ProductDoc.inventory p); reflexivity.
Qed.

(** With unique ids, updating the first match is updating the match. *)
Lemma update_first_stock (oid : ObjectId) (delta : Z) (ps : list ProductDoc.t) :
  NoDup (map ProductDoc._id ps) ->
  map (fun p => (ProductDoc._id p, stock p))
      (update_first (id_is oid) (inc_inventory delta) ps)
  = map (fun p => (ProductDoc._id p,
                   if N.eqb (ProductDoc._id p) oid then (stock p + delta)%Z else stock p))
        ps.
Proof.
  induction ps as [|p ps IH]; intros Hnd; simpl.
  - reflexivity.
  - inversion Hnd as [|x l Hnotin Hnd']; subst.
    unfold id_is at 1.
    destruct (N.eqb_spec (ProductDoc._id p) oid) as [E|E]; simpl.
    + rewrite stock_inc_inventory. f_equal.
      apply map_ext_in. intros q Hq.
      destruct (N.eqb_spec (ProductDoc._id q) oid) as [E'|_]; [|reflexivity].
      exfalso. apply Hnotin. rewrite E, <- E'. apply in_map. exact Hq.
    + f_equal. apply IH. exact Hnd'.
Qed.

Lemma apply_decrement_ids (ps : list ProductDoc.t) (it : Doc CartItem.t) :
  map ProductDoc._id (apply_decrement ps it) = map ProductDoc._id ps.
Proof.
  unfold apply_decrement.
  destruct (ObjectId_of_str (CartItem.product_id (body it)));
    [apply update_first_ids | reflexivity].
Qed.

Lemma apply_decrement_stock (ps : list ProductDoc.t) (it : Doc CartItem.t) :
  NoDup (map ProductDoc._id ps) ->
  map (fun p => (ProductDoc._id p, stock p)) (apply_decrement ps it)
  = map (fun p => (ProductDoc._id p,
                   if references (ProductDoc._id p) it
                   then (stock p - CartItem.quantity (body it))%Z else stock p))
        ps.
Proof.
  intros Hnd. unfold apply_decrement, references.
  destruct (ObjectId_of_str (CartItem.product_id (body it))) as [oid|].
  - rewrite update_first_stock by exact Hnd.
    apply map_ext. intros p. rewrite (N.eqb_sym oid).
    destruct (N.eqb (ProductDoc._id p) oid); [f_equal; lia | reflexivity].
  - reflexivity.
Qed.

(** The decrement loop, product by product: the stock falls by the total
    quantity of the rows that reference the product. *)
Lemma fold_decrement_stock (items : list (Doc CartItem.t)) :
  forall ps,
    NoDup (map ProductDoc._id ps) ->
    map (fun p => (ProductDoc._id p, stock p)) (fold_left apply_decrement items ps)
    = map (fun p => (ProductDoc._id p,
                     (stock p - referenced_quantity (ProductDoc._id p) items)%Z))
          ps.
Proof.
  induction items as [|it items IH]; intros ps Hnd; cbn [fold_left].
  - apply map_ext. intros p. simpl. f_equal. lia.
  - rewrite IH by (rewrite apply_decrement_ids; exact Hnd).
    change (fun p : ProductDoc.t =>
              (ProductDoc._id p, (stock p - referenced_quantity (ProductDoc._id p) items)%Z))
      with (fun p : ProductDoc.t =>
              (fun q : ObjectId * Z => (fst q, (snd q - referenced_quantity (fst q) items)%Z))
                (ProductDoc._id p, stock p)).
    rewrite <- (map_map (fun p => (ProductDoc._id p, stock p))
                  (fun q => (fst q, (snd q - referenced_quantity (fst q) items)%Z))).
    rewrite apply_decrement_stock by exact Hnd.
    rewrite map_map. apply map_ext. intros p. cbn [fst snd referenced_quantity fold_right].
    fold (referenced_quantity (ProductDoc._id p) items).
    destruct (references (ProductDoc._id p) it); f_equal; lia.
Qed.

End CheckoutFacts.

Module CheckoutSpec.
Import CheckoutFacts.

(** C3: [checkout] for a user without cart rows raises
    [HTTPException(400, "Cart is empty")]; no order is created and the
    store is left as it was. *)
Theorem checkout_empty_cart (req : CheckoutRequest.t) (d : DB) :
  filter (user_id_is (CheckoutRequest.user_id req)) (cartitem d) = [] ->
  checkout req d = (inl (HTTPException 400 "Cart is empty"), d).
Proof.
  intros H. rewrite checkout_run, H. reflexivity.
Qed.

Lemma checkout_empty_cart_witness :
  checkout (CheckoutRequest.mk "u3") Sample.db_dangling
  = (inl (HTTPException 400 "Cart is empty"), Sample.db_dangling).
Proof.
  apply (checkout_empty_cart (CheckoutRequest.mk "u3") Sample.db_dangling).
  reflexivity.
Defined.

(** C1: [checkout] on a non-empty cart persists one order whose
    [total_amount] is the sum, over the user's cart rows in store order,
    of the row's stored [unit_price] times its [quantity].  The product
    collection [prods] at checkout time is arbitrary: whatever the
    catalog prices have become, the total is that of the stored rows. *)
Theorem checkout_total (req : CheckoutRequest.t) (d : DB) (prods : list ProductDoc.t) :
  filter (user_id_is (CheckoutRequest.user_id req)) (cartitem d) <> [] ->
  exists o d',
    checkout req (mkDB prods (cartitem d) (order d) (subscription d) (next_oid d))
    = (inr (OkOrder (oid_str (next_oid d))), d')
    /\ order d' = order d ++ [mkDoc (next_oid d) o]
    /\ Order.total_amount o
       = sum_line_totals
           (map body (filter (user_id_is (CheckoutRequest.user_id req)) (cartitem d)))
    /\ Order.items o
       = map body (filter (user_id_is (CheckoutRequest.user_id req)) (cartitem d))
    /\ Order.order_status o = Order.pending.
Proof.
  intros Hne. rewrite checkout_run. cbn [cartitem order next_oid subscription product].
  destruct (filter (user_id_is (CheckoutRequest.user_id req)) (cartitem d))
    as [|it items]; [contradiction|].
  do 2 eexists. split; [reflexivity|].
  cbn [order]. split; [reflexivity|].
  repeat split.
Qed.

Lemma checkout_total_witness :
  exists o d',
    checkout (CheckoutRequest.mk "u1") Sample.db_repriced
    = (inr (OkOrder (oid_str 4%N)), d')
    /\ order d' = [mkDoc 4%N o]
    /\ Order.total_amount o = 25%float.
Proof.
  destruct (checkout_total (CheckoutRequest.mk "u1") Sample.db_cart
              (product Sample.db_repriced))
    as [o [d' [E [Ho [Ht _]]]]].
  - vm_compute. discriminate.
  - exists o, d'. split; [exact E|]. split; [exact Ho|].
    rewrite Ht. vm_compute. reflexivity.
Defined.

(** C2: [checkout] on a non-empty cart answers ok with the id of the
    order it persisted, and then runs one inventory decrement per cart
    row: the product collection is the fold of [apply_decrement] over the
    rows.  No turn of the loop raises, so a row whose decrement fails
    (its [product_id] is no ObjectId) or finds no product changes nothing
    and stops nothing.  With unique product ids, every product's stock
    has fallen by the total quantity of the rows that reference it. *)
Theorem checkout_decrements_inventory (req : CheckoutRequest.t) (d : DB) :
  filter (user_id_is (CheckoutRequest.user_id req)) (cartitem d) <> [] ->
  exists o d',
    checkout req d = (inr (OkOrder (oid_str (next_oid d))), d')
    /\ order d' = order d ++ [mkDoc (next_oid d) o]
    /\ (forall it d0, fst (decrement_inventory it d0) = inr tt)
    /\ product d'
       = fold_left apply_decrement
           (filter (user_id_is (CheckoutRequest.user_id req)) (cartitem d)) (product d)
    /\ (NoDup (map ProductDoc._id (product d)) ->
        map (fun p => (ProductDoc._id p, stock p)) (product d')
        = map (fun p =>
                 (ProductDoc._id p,
                  (stock p
                   - referenced_quantity (ProductDoc._id p)
                       (filter (user_id_is (CheckoutRequest.user_id req)) (cartitem d)))%Z))
              (product d)).
Proof.
  intros Hne. rewrite checkout_run.
  destruct (filter (user_id_is (CheckoutRequest.user_id req)) (cartitem d))
    as [|it items] eqn:E; [contradiction|].
  do 2 eexists. split; [reflexivity|].
  cbn [order product]. split; [reflexivity|].
  split; [intros it0 d0; rewrite decrement_inventory_run; reflexivity|].
  split; [reflexivity|].
  intros Hnd. apply fold_decrement_stock. exact Hnd.
Qed.

Lemma checkout_decrements_inventory_witness :
  exists o d',
    checkout (CheckoutRequest.mk "u1") Sample.db_dangling
    = (inr (OkOrder (oid_str 6%N)), d')
    /\ order d' = [mkDoc 6%N o]
    /\ map (fun p => (ProductDoc._id p, stock p)) (product d')
       = [(0%N, 98%Z); (1%N, 100%Z)].
Proof.
  destruct (checkout_decrements_inventory (CheckoutRequest.mk "u1") Sample.db_dangling)
    as [o [d' [E [Ho [_ [_ Hs]]]]]].
  - vm_compute. discriminate.
  - exists o, d'. split; [exact E|]. split; [exact Ho|].
    rewrite Hs.
    + vm_compute. reflexivity.
    + repeat constructor; simpl; intuition discriminate.
Defined.

(** C4: after a [checkout] that answered ok, the user has no cart row
    left, and the cart collection is the old one without that user's
    rows, whatever the decrement loop did. *)
Theorem checkout_clears_cart (req : CheckoutRequest.t) (d d' : DB) (resp : response) :
  checkout req d = (inr resp, d') ->
  filter (user_id_is (CheckoutRequest.user_id req)) (cartitem d') = []
  /\ cartitem d'
     = filter (fun r => negb (user_id_is (CheckoutRequest.user_id req) r)) (cartitem d).
Proof.
  rewrite checkout_run.
  destruct (filter (user_id_is (CheckoutRequest.user_id req)) (cartitem d))
    as [|it items]; intros H; [discriminate|].
  injection H as _ <-. cbn [cartitem]. split; [|reflexivity].
  induction (cartitem d) as [|r rows IH]; simpl; [reflexivity|].
  destruct (user_id_is (CheckoutRequest.user_id req) r) eqn:Er; simpl.
  - exact IH.
  - rewrite Er. exact IH.
Qed.

Lemma checkout_clears_cart_witness :
  cartitem (snd (checkout (CheckoutRequest.mk "u1") Sample.db_dangling))
  = [mkDoc 5%N (CartItem.mk "u2" (oid_str 1%N) 1%Z None None [] 5%float)].
Proof.
  rewrite (proj2 (checkout_clears_cart (CheckoutRequest.mk "u1") Sample.db_dangling
                    (snd (checkout (CheckoutRequest.mk "u1") Sample.db_dangling))
                    (OkOrder (oid_str 6%N)) eq_refl)).
  reflexivity.
Defined.

(** The example of the specification: two pencils at 10 and one case at 5
    give one order of total 25, an empty cart, and stocks of 98 and 99. *)
Example checkout_example :
  let d' := snd (checkout (CheckoutRequest.mk "u1") Sample.db_cart) in
  fst (checkout (CheckoutRequest.mk "u1") Sample.db_cart) = inr (OkOrder (oid_str 4%N))
  /\ map (fun o => Order.total_amount (body o)) (order d') = [25%float]
  /\ cartitem d' = []
  /\ map (fun p => (ProductDoc.slug p, stock p)) (product d')
     = [("pencil-x1", 98%Z); ("case-y2", 99%Z)].
Proof.
  vm_compute. repeat split.
Qed.

End CheckoutSpec.

(** ** Cart *)

Module CartFacts.

Lemma cart_item_errors_nil (c : CartItem.t) :
  CartItem.errors c = [] <->
  (1 <= CartItem.quantity c)%Z /\ float_ge0 (CartItem.unit_price c) = true.
Proof.
  unfold CartItem.errors.
  destruct (Z.leb_spec 1 (CartItem.quantity c)) as [Hq|Hq];
    destruct (float_ge0 (CartItem.unit_price c)); simpl; split;
    try (intros H; discriminate H);
    try (intros [H1 H2]; first [discriminate H2 | exfalso; lia]).
  - intros _. split; [exact Hq | reflexivity].
  - reflexivity.
Qed.

Lemma cart_item_errors_quantity (c : CartItem.t) :
  (CartItem.quantity c < 1)%Z ->
  exists fields, CartItem.errors c = "quantity" :: fields.
Proof.
  intros Hq. unfold CartItem.errors.
  destruct (Z.leb_spec 1 (CartItem.quantity c)) as [H|_]; [exfalso; lia|].
  eexists. reflexivity.
Qed.

(** The whole of [add_to_cart], in one equation. *)
Lemma add_to_cart_run (b : AddToCart.t) (d : DB) :
  add_to_cart b d
  = match List.find (slug_is (AddToCart.product_slug b)) (product d) with
    | None => (inl (HTTPException 404 "Product not found"), d)
    | Some prod =>
        match CartItem.errors (new_cart_item b prod) with
        | [] =>
            (inr Ok,
             mkDB (product d) (cartitem d ++ [mkDoc (next_oid d) (new_cart_item b prod)])
                  (order d) (subscription d) (N.succ (next_oid d)))
        | fields => (inl (ValidationError "CartItem" fields), d)
        end
    end.
Proof.
  unfold add_to_cart, bind at 1, find_one. cbn [docs product_coll].
  destruct (List.find (slug_is (AddToCart.product_slug b)) (product d)) as [prod|].
  - unfold bind, lift, CartItem.validate.
    change (CartItem.mk (AddToCart.user_id b) (oid_str (ProductDoc._id prod))
              (AddToCart.quantity b) (AddToCart.color b) (AddToCart.texture b)
              match AddToCart.selected_features b with
              | Some l => l
              | None => []
              end
              match ProductDoc.base_price prod with
              | Some p => p
              | None => 0%float
              end)
      with (new_cart_item b prod).
    destruct (CartItem.errors (new_cart_item b prod)); reflexivity.
  - reflexivity.
Qed.

(** The row stored for a product names that product: its [product_id]
    reads back as the product's [_id]. *)
Lemma new_cart_item_references (b : AddToCart.t) (prod : ProductDoc.t) (oid : ObjectId) :
  (ProductDoc._id prod < oid_bound)%N ->
  references (ProductDoc._id prod) (mkDoc oid (new_cart_item b prod)) = true.
Proof.
  intros Hid. unfold references. cbn [body new_cart_item CartItem.product_id].
  rewrite BsonFacts.ObjectId_of_str_oid_str by exact Hid.
  apply N.eqb_refl.
Qed.

Lemma add_to_cart_keeps_rows_valid (b : AddToCart.t) (d : DB) :
  cart_rows_valid d -> cart_rows_valid (snd (add_to_cart b d)).
Proof.
  intros Hd. rewrite add_to_cart_run.
  destruct (List.find (slug_is (AddToCart.product_slug b)) (product d)) as [prod|];
    [|exact Hd].
  destruct (CartItem.errors (new_cart_item b prod)) eqn:E; [|exact Hd].
  unfold cart_rows_valid. cbn [snd cartitem].
  apply Forall_app. split; [exact Hd|].
  constructor; [|constructor].
  apply cart_item_errors_nil. exact E.
Qed.

Lemma checkout_keeps_rows_valid (req : CheckoutRequest.t) (d : DB) :
  cart_rows_valid d -> cart_rows_valid (snd (checkout req d)).
Proof.
  intros Hd. rewrite CheckoutFacts.checkout_run.
  destruct (filter (user_id_is (CheckoutRequest.user_id req)) (cartitem d));
    [exact Hd|].
  unfold cart_rows_valid in *. cbn [snd cartitem].
  apply Forall_forall. intros r Hr. apply filter_In in Hr.
  rewrite Forall_forall in Hd. apply Hd. apply Hr.
Qed.

Lemma create_product_keeps_cart (p : Product.t) (d : DB) :
  cartitem (snd (create_product_endpoint p d)) = cartitem d.
Proof.
  unfold create_product_endpoint, bind, find_one. simpl.
  destruct (List.find (slug_is (Product.slug p)) (product d)); reflexivity.
Qed.

Lemma create_subscription_keeps_cart (req : SubscriptionRequest.t) (d : DB) :
  cartitem (snd (create_subscription req d)) = cartitem d.
Proof.
  unfold create_subscription, bind, find_one, lift. simpl.
  destruct (List.find (slug_is (SubscriptionRequest.product_slug req)) (product d));
    [|reflexivity].
  destruct (Subscription.validate _ _ _ _); reflexivity.
Qed.

Lemma get_inventory_keeps_store (slug : string) (d : DB) :
  snd (get_inventory slug d) = d.
Proof.
  unfold get_inventory, bind, find_one. simpl.
  destruct (List.find (slug_is slug) (product d)); reflexivity.
Qed.

Lemma handle_keeps_rows_valid (r : App.request) (d : DB) :
  cart_rows_valid d -> cart_rows_valid (snd (App.handle r d)).
Proof.
  intros Hd. destruct r as [p|b|req|req|slug]; cbn [App.handle].
  - unfold cart_rows_valid.
    destruct (Product.errors p); [rewrite create_product_keeps_cart|]; exact Hd.
  - apply add_to_cart_keeps_rows_valid. exact Hd.
  - apply checkout_keeps_rows_valid. exact Hd.
  - unfold cart_rows_valid. rewrite create_subscription_keeps_cart. exact Hd.
  - rewrite get_inventory_keeps_store. exact Hd.
Qed.

Lemma serve_keeps_rows_valid (reqs : list App.request) :
  forall d, cart_rows_valid d -> cart_rows_valid (App.serve reqs d).
Proof.
  unfold App.serve.
  induction reqs as [|r reqs IH]; intros d Hd; cbn [fold_left].
  - exact Hd.
  - apply IH. apply handle_keeps_rows_valid. exact Hd.
Qed.

End CartFacts.

Module CartSpec.
Import QueryFacts CartFacts.

(** C7: [add_to_cart] with a slug that no stored product has raises
    [HTTPException(404, "Product not found")] and leaves the store, and
    so the caller's cart, as it was. *)
Theorem add_to_cart_unknown_slug (b : AddToCart.t) (d : DB) :
  (forall p, In p (product d) -> ProductDoc.slug p <> AddToCart.product_slug b) ->
  add_to_cart b d = (inl (HTTPException 404 "Product not found"), d)
  /\ cartitem (snd (add_to_cart b d)) = cartitem d.
Proof.
  intros H. rewrite add_to_cart_run, (find_slug_none _ _ H).
  split; reflexivity.
Qed.

Lemma add_to_cart_unknown_slug_witness :
  add_to_cart (AddToCart.mk "u1" "eraser-z9" 1%Z None None None) Sample.db_cart
  = (inl (HTTPException 404 "Product not found"), Sample.db_cart).
Proof.
  apply (add_to_cart_unknown_slug
           (AddToCart.mk "u1" "eraser-z9" 1%Z None None None) Sample.db_cart).
  simpl. intros p [<-|[<-|[]]]; discriminate.
Defined.

(** C5 as stated fails: with [quantity = 0] the slug resolves, yet the
    call raises the validation error of [CartItem] and appends no row. *)
Lemma add_to_cart_quantity_zero_appends_nothing :
  ~ (forall (b : AddToCart.t) (d : DB) (prod : ProductDoc.t),
        find_one product_coll (slug_is (AddToCart.product_slug b)) d
        = (inr (Some prod), d) ->
        exists row,
          cartitem (snd (add_to_cart b d)) = cartitem d ++ [row]
          /\ CartItem.unit_price (body row) = price_of prod).
Proof.
  intros H.
  destruct (H (AddToCart.mk "u1" "pencil-x1" 0%Z None None None)
              Sample.db_catalog _ eq_refl) as [row [E _]].
  vm_compute in E. discriminate E.
Qed.

(** C5, amended: when the slug resolves to a stored product, the
    quantity is at least 1 and the product's base price passes [ge=0],
    [add_to_cart] answers ok and appends one row under a fresh id; the
    row's [unit_price] is the base price the product has at the call
    (0.0 if the document lacks it).  The rows already stored stay as
    they are, and a second identical call appends a second row: nothing
    is merged. *)
Theorem add_to_cart_appends_row (b : AddToCart.t) (d : DB) (prod : ProductDoc.t) :
  find_one product_coll (slug_is (AddToCart.product_slug b)) d = (inr (Some prod), d) ->
  (1 <= AddToCart.quantity b)%Z ->
  float_ge0 (price_of prod) = true ->
  exists row,
    add_to_cart b d
    = (inr Ok,
       mkDB (product d) (cartitem d ++ [mkDoc (next_oid d) row])
            (order d) (subscription d) (N.succ (next_oid d)))
    /\ CartItem.unit_price row = price_of prod
    /\ CartItem.user_id row = AddToCart.user_id b
    /\ CartItem.product_id row = oid_str (ProductDoc._id prod)
    /\ CartItem.quantity row = AddToCart.quantity b
    /\ cartitem (snd (add_to_cart b (snd (add_to_cart b d))))
       = cartitem d ++ [mkDoc (next_oid d) row; mkDoc (N.succ (next_oid d)) row].
Proof.
  intros Hfind Hq Hp. apply find_one_product in Hfind.
  assert (Hok : CartItem.errors (new_cart_item b prod) = [])
    by (apply cart_item_errors_nil; split; assumption).
  exists (new_cart_item b prod).
  rewrite add_to_cart_run, Hfind, Hok.
  split; [reflexivity|]. repeat (split; [reflexivity|]).
  cbn [snd]. rewrite add_to_cart_run. cbn [product]. rewrite Hfind, Hok.
  cbn [snd cartitem next_oid]. rewrite <- app_assoc. reflexivity.
Qed.

Lemma add_to_cart_appends_row_witness :
  exists row,
    cartitem (snd (add_to_cart Sample.add_pencil Sample.db_cart))
    = cartitem Sample.db_cart ++ [mkDoc 4%N row]
    /\ CartItem.unit_price row = 10%float.
Proof.
  destruct (add_to_cart_appends_row Sample.add_pencil Sample.db_cart
              (ProductDoc.of_model 0%N Sample.pencil) eq_refl)
    as [row [E [Hp _]]].
  - simpl. lia.
  - reflexivity.
  - exists row. rewrite E. split; [reflexivity | exact Hp].
Defined.

(** C10 as stated fails: with [quantity = 0] and a slug that no product
    has, the call fails with the 404 of the lookup, not with a schema
    validation error. *)
Lemma add_to_cart_quantity_zero_unknown_slug :
  ~ (forall (b : AddToCart.t) (d : DB),
        (AddToCart.quantity b < 1)%Z ->
        exists fields, fst (add_to_cart b d) = inl (ValidationError "CartItem" fields)).
Proof.
  intros H.
  destruct (H (AddToCart.mk "u1" "pencil-x1" 0%Z None None None) App.empty_db)
    as [fields E].
  - simpl. lia.
  - vm_compute in E. discriminate E.
Qed.

(** C10, amended: from a store whose cart rows satisfy the [CartItem]
    constraints, every sequence of requests leads to a store whose cart
    rows satisfy them: [quantity >= 1] and [unit_price >= 0].  An
    [add_to_cart] call with a quantity below 1 never inserts: when its
    slug resolves it raises the validation error of [CartItem], naming
    [quantity], before any insert; when the slug does not resolve it
    raises the 404 of the lookup.  Either way the store is unchanged. *)
Theorem cart_rows_stay_valid (d : DB) (reqs : list App.request) (b : AddToCart.t) :
  cart_rows_valid d ->
  cart_rows_valid (App.serve reqs d)
  /\ ((AddToCart.quantity b < 1)%Z ->
      (forall prod,
          find_one product_coll (slug_is (AddToCart.product_slug b)) d
          = (inr (Some prod), d) ->
          exists fields,
            add_to_cart b d = (inl (ValidationError "CartItem" ("quantity" :: fields)), d))
      /\ (find_one product_coll (slug_is (AddToCart.product_slug b)) d = (inr None, d) ->
          add_to_cart b d = (inl (HTTPException 404 "Product not found"), d))).
Proof.
  intros Hd. split; [apply serve_keeps_rows_valid; exact Hd|].
  intros Hq. split.
  - intros prod Hfind. apply find_one_product in Hfind.
    destruct (cart_item_errors_quantity (new_cart_item b prod) Hq) as [fields E].
    exists fields. rewrite add_to_cart_run, Hfind, E. reflexivity.
  - intros Hfind. apply find_one_product in Hfind.
    rewrite add_to_cart_run, Hfind. reflexivity.
Qed.

Lemma cart_rows_stay_valid_witness :
  cart_rows_valid
    (App.serve [App.PostProducts Sample.pencil;
                App.PostCartAdd Sample.add_pencil;
                App.PostCartAdd (AddToCart.mk "u1" "pencil-x1" 0%Z None None None)]
               App.empty_db)
  /\ add_to_cart (AddToCart.mk "u1" "pencil-x1" 0%Z None None None) Sample.db_catalog
     = (inl (ValidationError "CartItem" ["quantity"]), Sample.db_catalog).
Proof.
  split.
  - apply (cart_rows_stay_valid App.empty_db _ Sample.add_pencil). constructor.
  - destruct (cart_rows_stay_valid Sample.db_catalog []
                (AddToCart.mk "u1" "pencil-x1" 0%Z None None None)) as [_ H].
    + constructor.
    + destruct H as [H _]; [simpl; lia|].
      destruct (H _ eq_refl) as [fields E].
      assert (Hf : fields = []).
      { pose proof E as E'. vm_compute in E'. injection E' as E'.
        symmetry. exact E'. }
      rewrite Hf in E. exact E.
Defined.

End CartSpec.

(** ** Subscriptions *)

Module SubscriptionSpec.
Import QueryFacts.

(** The whole of [create_subscription], in one equation. *)
Lemma create_subscription_run (req : SubscriptionRequest.t) (d : DB) :
  create_subscription req d
  = match List.find (slug_is (SubscriptionRequest.product_slug req)) (product d) with
    | None => (inl (HTTPException 404 "Product not found"), d)
    | Some prod =>
        match Subscription.validate (SubscriptionRequest.user_id req)
                (oid_str (ProductDoc._id prod)) (SubscriptionRequest.plan req)
                (SubscriptionRequest.refill_quantity req) with
        | inl e => (inl e, d)
        | inr sub =>
            (inr (OkSubscription (oid_str (next_oid d))),
             mkDB (product d) (cartitem d) (order d)
                  (subscription d ++ [mkDoc (next_oid d) sub]) (N.succ (next_oid d)))
        end
    end.
Proof.
  unfold create_subscription, bind at 1, find_one. cbn [docs product_coll].
  destruct (List.find (slug_is (SubscriptionRequest.product_slug req)) (product d))
    as [prod|]; [|reflexivity].
  unfold bind, lift.
  destruct (Subscription.validate _ _ _ _); reflexivity.
Qed.

(** C8 as stated fails: the slug resolves, but the plan is none of the
    three of the schema, so the call raises and inserts nothing. *)
Lemma create_subscription_unknown_plan_inserts_nothing :
  ~ (forall (req : SubscriptionRequest.t) (d : DB) (prod : ProductDoc.t),
        find_one product_coll (slug_is (SubscriptionRequest.product_slug req)) d
        = (inr (Some prod), d) ->
        exists sub_id sub,
          fst (create_subscription req d) = inr (OkSubscription sub_id)
          /\ subscription (snd (create_subscription req d)) = subscription d ++ [sub]).
Proof.
  intros H.
  destruct (H (SubscriptionRequest.mk "u1" "pencil-x1" "weekly" 2%Z)
              Sample.db_catalog _ eq_refl) as [sub_id [sub [E _]]].
  vm_compute in E. discriminate E.
Qed.

(** C8, amended: [create_subscription] raises
    [HTTPException(404, "Product not found")] when no stored product has
    the slug.  When one has, the plan is one of monthly, quarterly and
    yearly, and the refill quantity is at least 1, it appends a
    subscription with the user, the product's id, that plan, status
    active and that refill quantity, and answers with the id of the new
    document.  When the plan or the refill quantity fails the schema, it
    raises the validation error of [Subscription] and inserts nothing. *)
Theorem create_subscription_not_found_or_insert (req : SubscriptionRequest.t) (d : DB) :
  ((forall p, In p (product d) ->
              ProductDoc.slug p <> SubscriptionRequest.product_slug req) ->
   create_subscription req d = (inl (HTTPException 404 "Product not found"), d))
  /\
  (forall prod,
      find_one product_coll (slug_is (SubscriptionRequest.product_slug req)) d
      = (inr (Some prod), d) ->
      (forall p,
          Subscription.plan_of_string (SubscriptionRequest.plan req) = Some p ->
          (1 <= SubscriptionRequest.refill_quantity req)%Z ->
          create_subscription req d
          = (inr (OkSubscription (oid_str (next_oid d))),
             mkDB (product d) (cartitem d) (order d)
                  (subscription d
                   ++ [mkDoc (next_oid d)
                         (Subscription.mk (SubscriptionRequest.user_id req)
                            (oid_str (ProductDoc._id prod)) p Subscription.active
                            (SubscriptionRequest.refill_quantity req))])
                  (N.succ (next_oid d))))
      /\
      (Subscription.plan_of_string (SubscriptionRequest.plan req) = None
       \/ (SubscriptionRequest.refill_quantity req < 1)%Z ->
       exists fields,
         create_subscription req d = (inl (ValidationError "Subscription" fields), d))).
Proof.
  split.
  - intros H. rewrite create_subscription_run, (find_slug_none _ _ H). reflexivity.
  - intros prod Hfind. apply find_one_product in Hfind.
    rewrite create_subscription_run, Hfind.
    unfold Subscription.validate, Subscription.errors.
    split.
    + intros p Hp Hr. rewrite Hp.
      destruct (Z.leb_spec 1 (SubscriptionRequest.refill_quantity req)); [|exfalso; lia].
      reflexivity.
    + intros Hbad.
      destruct (Subscription.plan_of_string (SubscriptionRequest.plan req)) as [p|].
      * destruct Hbad as [Hbad|Hbad]; [discriminate Hbad|].
        destruct (Z.leb_spec 1 (SubscriptionRequest.refill_quantity req)); [exfalso; lia|].
        eexists. reflexivity.
      * eexists. reflexivity.
Qed.

Lemma create_subscription_not_found_or_insert_witness :
  create_subscription (SubscriptionRequest.mk "u1" "eraser-z9" "monthly" 2%Z)
    Sample.db_catalog
  = (inl (HTTPException 404 "Product not found"), Sample.db_catalog)
  /\
  create_subscription (SubscriptionRequest.mk "u1" "case-y2" "monthly" 2%Z)
    Sample.db_catalog
  = (inr (OkSubscription (oid_str 2%N)),
     mkDB (product Sample.db_catalog) [] []
          [mkDoc 2%N (Subscription.mk "u1" (oid_str 1%N) Subscription.monthly
                        Subscription.active 2%Z)]
          3%N).
Proof.
  split.
  - apply (proj1 (create_subscription_not_found_or_insert
                    (SubscriptionRequest.mk "u1" "eraser-z9" "monthly" 2%Z)
                    Sample.db_catalog)).
    simpl. intros p [<-|[<-|[]]]; discriminate.
  - apply (proj1 (proj2 (create_subscription_not_found_or_insert
                           (SubscriptionRequest.mk "u1" "case-y2" "monthly" 2%Z)
                           Sample.db_catalog) _ eq_refl)).
    + reflexivity.
    + simpl. lia.
Defined.

End SubscriptionSpec.

(** * Further properties *)

(** ** Facts about the endpoints that only read *)

Module ViewFacts.

Lemma comprehension_forall2 {A B} (f : A -> exn + B) (l : list A) :
  forall ys, comprehension f l = inr ys -> Forall2 (fun x y => f x = inr y) l ys.
Proof.
  induction l as [|x l IH]; intros ys H; cbn [comprehension] in H.
  - injection H as <-. constructor.
  - destruct (f x) as [e|y] eqn:Ex; [discriminate|].
    destruct (comprehension f l) as [e|zs]; [discriminate|].
    injection H as <-. constructor; [exact Ex | apply IH; reflexivity].
Qed.

Lemma comprehension_all {A B} (f : A -> exn + B) (l : list A) :
  Forall (fun x => exists y, f x = inr y) l -> exists ys, comprehension f l = inr ys.
Proof.
  induction 1 as [|x l [y Hy] _ [ys IH]]; cbn [comprehension].
  - exists []. reflexivity.
  - rewrite Hy, IH. exists (y :: ys). reflexivity.
Qed.

Lemma comprehension_app {A B} (f : A -> exn + B) (l1 l2 : list A) (ys1 ys2 : list B) :
  comprehension f l1 = inr ys1 -> comprehension f l2 = inr ys2 ->
  comprehension f (l1 ++ l2) = inr (ys1 ++ ys2).
Proof.
  revert ys1. induction l1 as [|x l1 IH]; intros ys1 H1 H2; cbn [comprehension app] in *.
  - injection H1 as <-. exact H2.
  - destruct (f x) as [e|y]; [discriminate|].
    destruct (comprehension f l1) as [e|zs]; [discriminate|].
    injection H1 as <-. rewrite (IH zs eq_refl H2). reflexivity.
Qed.

Lemma comprehension_fails {A B} (f : A -> exn + B) (l : list A) (x : A) (e : exn) :
  In x l -> f x = inl e -> exists e', comprehension f l = inl e'.
Proof.
  induction l as [|a l IH]; intros Hin Hx; [destruct Hin|].
  cbn [comprehension]. destruct (f a) as [ea|y] eqn:Ea; [exists ea; reflexivity|].
  destruct Hin as [->|Hin]; [congruence|].
  destruct (IH Hin Hx) as [e' ->]. exists e'. reflexivity.
Qed.

Lemma comprehension_error {A B} (f : A -> exn + B) (l : list A) (e : exn) :
  comprehension f l = inl e -> exists x, In x l /\ f x = inl e.
Proof.
  induction l as [|a l IH]; cbn [comprehension]; intros H; [discriminate|].
  destruct (f a) as [ea|y] eqn:Ea.
  - injection H as <-. exists a. split; [left; reflexivity | exact Ea].
  - destruct (comprehension f l) as [e'|ys]; [|discriminate].
    injection H as <-. destruct (IH eq_refl) as [x [Hx Hfx]].
    exists x. split; [right; exact Hx | exact Hfx].
Qed.

(** The whole of [list_products], in one equation. *)
Lemma list_products_run (d : DB) :
  list_products d
  = (comprehension (fun p => ProductFields.to_model (ProductFields.of_doc p))
       (firstn 50 (product d)), d).
Proof. reflexivity. Qed.

Lemma to_model_listable (p : ProductDoc.t) :
  listable p <-> exists m, ProductFields.to_model (ProductFields.of_doc p) = inr m.
Proof.
  unfold listable, ProductFields.to_model. cbn [ProductFields.base_price ProductFields.of_doc].
  destruct (ProductDoc.base_price p) as [price|].
  - destruct (float_ge0 price) eqn:E; split.
    + intros _. eexists. reflexivity.
    + intros _. exists price. split; [reflexivity | exact E].
    + intros [x [Hx Hg]]. injection Hx as <-. congruence.
    + intros [m Hm]. discriminate.
  - split; [intros [x [Hx _]]; discriminate | intros [m Hm]; discriminate].
Qed.

Lemma list_products_listable (d : DB) :
  Forall listable (firstn 50 (product d)) -> exists l, fst (list_products d) = inr l.
Proof.
  intros H. rewrite list_products_run. cbn [fst]. apply comprehension_all.
  eapply Forall_impl; [|exact H]. intros p Hp. apply to_model_listable. exact Hp.
Qed.

Lemma to_model_error (p : ProductDoc.t) (e : exn) :
  ProductFields.to_model (ProductFields.of_doc p) = inl e ->
  e = ValidationError "Product" ["base_price"].
Proof.
  unfold ProductFields.to_model. cbn [ProductFields.base_price ProductFields.of_doc].
  destruct (ProductDoc.base_price p) as [price|]; [destruct (float_ge0 price)|];
    intros H; congruence.
Qed.

Lemma to_model_fields (p : ProductDoc.t) (m : Product.t) :
  ProductFields.to_model (ProductFields.of_doc p) = inr m ->
  Product.slug m = ProductDoc.slug p
  /\ float_ge0 (Product.base_price m) = true
  /\ ProductDoc.base_price p = Some (Product.base_price m)
  /\ Product.inventory m
     = match ProductDoc.inventory p with Some n => n | None => 100%Z end.
Proof.
  unfold ProductFields.to_model. cbn [ProductFields.base_price ProductFields.of_doc].
  destruct (ProductDoc.base_price p) as [price|]; [|discriminate].
  destruct (float_ge0 price) eqn:E; [|discriminate].
  intros H. injection H as <-. cbn. repeat split. exact E.
Qed.

Lemma to_model_of_model (oid : ObjectId) (p : Product.t) :
  float_ge0 (Product.base_price p) = true ->
  ProductFields.to_model (ProductFields.of_doc (ProductDoc.of_model oid p)) = inr p.
Proof.
  intros H. unfold ProductFields.to_model.
  cbn [ProductFields.base_price ProductFields.of_doc ProductDoc.of_model
       ProductDoc.base_price].
  rewrite H. destruct p; reflexivity.
Qed.

Lemma models_of_docs (ps : list ProductDoc.t) (ms : list Product.t) :
  Forall2 (fun p m => ProductFields.to_model (ProductFields.of_doc p) = inr m) ps ms ->
  map Product.slug ms = map ProductDoc.slug ps
  /\ Forall (fun m => float_ge0 (Product.base_price m) = true) ms.
Proof.
  induction 1 as [|p m ps ms Hpm _ [IH1 IH2]].
  - split; [reflexivity | constructor].
  - destruct (to_model_fields _ _ Hpm) as [Hs [Hg _]].
    split; [cbn [map]; rewrite Hs, IH1; reflexivity | constructor; assumption].
Qed.

Lemma join_product_run (it : Doc CartItem.t) (d : DB) :
  join_product it d = (joined (product d) it, d).
Proof.
  unfold join_product, joined, bind, lift, find_one, ret.
  destruct (ObjectId_of_str (CartItem.product_id (body it))) as [oid|]; [|reflexivity].
  cbn [docs product_coll].
  destruct (List.find (id_is oid) (product d)); reflexivity.
Qed.

Lemma collect_join_run (items : list (Doc CartItem.t)) (d : DB) :
  collect join_product items d = (comprehension (joined (product d)) items, d).
Proof.
  induction items as [|it items IH]; cbn [collect comprehension].
  - reflexivity.
  - unfold bind at 1. rewrite join_product_run.
    destruct (joined (product d) it) as [e|y]; [reflexivity|].
    unfold bind at 1. rewrite IH.
    destruct (comprehension (joined (product d)) items); reflexivity.
Qed.

(** The whole of [get_cart], in one equation. *)
Lemma get_cart_run (u : string) (d : DB) :
  get_cart u d
  = (comprehension (joined (product d)) (filter (user_id_is u) (cartitem d)), d).
Proof.
  unfold get_cart, bind, find. cbn [docs cartitem_coll]. apply collect_join_run.
Qed.

Lemma joined_valid (prods : list ProductDoc.t) (it : Doc CartItem.t) :
  row_id_valid it <-> exists e, joined prods it = inr e.
Proof.
  unfold row_id_valid, is_valid, joined.
  destruct (ObjectId_of_str (CartItem.product_id (body it))); split.
  - intros _. eexists. reflexivity.
  - reflexivity.
  - discriminate.
  - intros [e He]. discriminate.
Qed.

End ViewFacts.

(** ** Listing the catalog *)

Module ListingSpec.
Import QueryFacts ViewFacts.

(** X1: [list_products] leaves the store as it is.  When it answers, it
    answers with one product per stored document among the first 50, in
    store order, and never with more: the slugs are those of the first 50
    documents and every listed base price passes [ge=0]. *)
Theorem list_products_first_fifty (d : DB) :
  snd (list_products d) = d
  /\ forall l,
       fst (list_products d) = inr l ->
       (List.length l <= 50)%nat
       /\ List.length l = Nat.min 50 (List.length (product d))
       /\ map Product.slug l = map ProductDoc.slug (firstn 50 (product d))
       /\ Forall (fun m => float_ge0 (Product.base_price m) = true) l.
Proof.
  rewrite list_products_run. split; [reflexivity|].
  cbn [fst]. intros l H. apply comprehension_forall2 in H.
  assert (Hlen : List.length l = Nat.min 50 (List.length (product d))).
  { rewrite <- (Forall2_length H). apply length_firstn. }
  split; [rewrite Hlen; apply Nat.le_min_l|]. split; [exact Hlen|].
  apply models_of_docs. exact H.
Qed.

Lemma list_products_first_fifty_witness :
  exists l,
    fst (list_products Sample.db_catalog) = inr l
    /\ map Product.slug l = ["pencil-x1"; "case-y2"].
Proof.
  exists [Sample.pencil; Sample.case_y2].
  split; [reflexivity|].
  exact (proj1 (proj2 (proj2 (proj2 (list_products_first_fifty Sample.db_catalog)
                                  [Sample.pencil; Sample.case_y2] eq_refl)))).
Defined.

(** X2: a stored product among the first 50 that lacks [base_price], or
    whose [base_price] fails [ge=0], makes [list_products] raise the
    validation error of [Product], wherever among the 50 it stands, and
    the store is left as it was.  A product after the fiftieth is never
    looked at: appending documents to a catalog of 50 or more changes
    nothing in the answer. *)
Theorem list_products_bad_price (d : DB) :
  (forall p,
      In p (firstn 50 (product d)) -> ~ listable p ->
      exists fields, list_products d = (inl (ValidationError "Product" fields), d))
  /\ ((50 <= List.length (product d))%nat ->
      forall extra,
        fst (list_products
               (mkDB (product d ++ extra) (cartitem d) (order d) (subscription d)
                     (next_oid d)))
        = fst (list_products d)).
Proof.
  split.
  - intros p Hin Hbad. rewrite list_products_run.
    assert (Hp : exists e, ProductFields.to_model (ProductFields.of_doc p) = inl e).
    { destruct (ProductFields.to_model (ProductFields.of_doc p)) as [e|m] eqn:E.
      - exists e. reflexivity.
      - exfalso. apply Hbad. apply to_model_listable. exists m. exact E. }
    destruct Hp as [e He].
    destruct (comprehension_fails
                (fun q => ProductFields.to_model (ProductFields.of_doc q))
                _ _ _ Hin He) as [e' He'].
    rewrite He'. destruct (comprehension_error _ _ _ He') as [x [_ Hx]].
    apply to_model_error in Hx. rewrite Hx. eexists. reflexivity.
  - intros Hlen extra. rewrite !list_products_run. cbn [fst product].
    rewrite firstn_app.
    replace (50 - List.length (product d))%nat with 0%nat by lia.
    cbn [firstn]. rewrite app_nil_r. reflexivity.
Qed.

Lemma list_products_bad_price_witness :
  (exists fields,
      list_products Sample.db_bare
      = (inl (ValidationError "Product" fields), Sample.db_bare))
  /\ fst (list_products
            (mkDB (product Sample2.db_fifty ++ [Sample.bare_product]) [] [] [] 50%N))
     = fst (list_products Sample2.db_fifty).
Proof.
  split.
  - apply (proj1 (list_products_bad_price Sample.db_bare) Sample.bare_product).
    + left. reflexivity.
    + intros [price [H _]]. discriminate H.
  - apply (proj2 (list_products_bad_price Sample2.db_fifty)).
    vm_compute. apply le_n.
Defined.

(** X3: a product created through [create_product_endpoint] is listed
    back unchanged, after the products listed before, as long as the
    catalog held fewer than 50 products; from the fiftieth on, the new
    product does not appear in the listing. *)
Theorem create_then_list (p : Product.t) (d : DB) (l : list Product.t) :
  float_ge0 (Product.base_price p) = true ->
  (forall q, In q (product d) -> ProductDoc.slug q <> Product.slug p) ->
  fst (list_products d) = inr l ->
  ((List.length (product d) < 50)%nat ->
   fst (list_products (snd (create_product_endpoint p d))) = inr (l ++ [p]))
  /\ ((50 <= List.length (product d))%nat ->
      fst (list_products (snd (create_product_endpoint p d))) = inr l).
Proof.
  intros Hp Hslug Hl.
  assert (Hd : product (snd (create_product_endpoint p d))
               = product d ++ [ProductDoc.of_model (next_oid d) p]).
  { unfold create_product_endpoint, bind, find_one. cbn [docs product_coll].
    rewrite (find_slug_none _ _ Hslug). reflexivity. }
  rewrite list_products_run in Hl. cbn [fst] in Hl.
  rewrite !list_products_run. cbn [fst]. rewrite Hd. split; intros Hlen.
  - rewrite firstn_all2 in Hl by lia.
    rewrite firstn_all2 by (rewrite length_app; simpl; lia).
    apply comprehension_app; [exact Hl|].
    cbn [comprehension]. rewrite to_model_of_model by exact Hp. reflexivity.
  - rewrite firstn_app.
    replace (50 - List.length (product d))%nat with 0%nat by lia.
    cbn [firstn]. rewrite app_nil_r. exact Hl.
Qed.

Lemma create_then_list_witness :
  fst (list_products (snd (create_product_endpoint Sample.case_y2
                             (mkDB [ProductDoc.of_model 0%N Sample.pencil] [] [] [] 1%N))))
  = inr [Sample.pencil; Sample.case_y2].
Proof.
  destruct (create_then_list Sample.case_y2
              (mkDB [ProductDoc.of_model 0%N Sample.pencil] [] [] [] 1%N)
              [Sample.pencil]) as [H _].
  - reflexivity.
  - intros q [<-|[]]. discriminate.
  - reflexivity.
  - apply H. simpl. lia.
Defined.

(** X4: the two readers disagree on a product that lacks [inventory]:
    [list_products] shows it with the model's default, 100, and
    [get_inventory] reports 0. *)
Theorem missing_inventory_two_answers (d : DB) (prod : ProductDoc.t) (l : list Product.t) :
  In prod (firstn 50 (product d)) ->
  find_one product_coll (slug_is (ProductDoc.slug prod)) d = (inr (Some prod), d) ->
  ProductDoc.inventory prod = None ->
  fst (list_products d) = inr l ->
  (exists m, In m l /\ Product.slug m = ProductDoc.slug prod
             /\ Product.inventory m = 100%Z)
  /\ exists stocked,
       get_inventory (ProductDoc.slug prod) d = (inr (Inventory 0%Z stocked), d).
Proof.
  intros Hin Hfind Hinv Hl. split.
  - rewrite list_products_run in Hl. cbn [fst] in Hl.
    apply comprehension_forall2 in Hl.
    induction Hl as [|p m ps ms Hpm _ IH]; [destruct Hin|].
    destruct Hin as [->|Hin].
    + exists m. destruct (to_model_fields _ _ Hpm) as [Hs [_ [_ Hi]]].
      rewrite Hinv in Hi. split; [left; reflexivity | split; assumption].
    + destruct (IH Hin) as [m' [Hm' H']]. exists m'. split; [right; exact Hm' | exact H'].
  - apply find_one_product in Hfind.
    unfold get_inventory, bind, find_one. cbn [docs product_coll].
    rewrite Hfind, Hinv. eexists. reflexivity.
Qed.

Lemma missing_inventory_two_answers_witness :
  (exists m, In m [Sample.pencil;
                   Product.mk "case-y2" "Case Y2" "A case" 5%float [] [] [] [] true 100%Z]
             /\ Product.slug m = "case-y2" /\ Product.inventory m = 100%Z)
  /\ exists stocked,
       get_inventory "case-y2" Sample2.db_partial
       = (inr (Inventory 0%Z stocked), Sample2.db_partial).
Proof.
  apply (missing_inventory_two_answers Sample2.db_partial
           (ProductDoc.mk 1%N "case-y2" "Case Y2" "A case" (Some 5%float)
              [] [] [] [] (Some true) None)).
  - right. left. reflexivity.
  - reflexivity.
  - reflexivity.
  - reflexivity.
Defined.

End ListingSpec.

(** ** Reading a cart *)

Module CartViewSpec.
Import QueryFacts ViewFacts CartFacts.

Lemma joined_fields (prods : list ProductDoc.t) (r : Doc CartItem.t) (e : CartEntry.t) :
  joined prods r = inr e ->
  CartEntry.item e = body r
  /\ CartEntry.id e = oid_str (_id r)
  /\ exists oid,
       ObjectId_of_str (CartItem.product_id (body r)) = Some oid
       /\ CartEntry.product e
          = option_map ProductFields.of_doc (List.find (id_is oid) prods).
Proof.
  unfold joined.
  destruct (ObjectId_of_str (CartItem.product_id (body r))) as [oid|]; [|discriminate].
  intros H. injection H as <-. cbn. repeat split. exists oid. split; reflexivity.
Qed.

(** With unique ids, a stored product is the one its own id finds. *)
Lemma find_id_of_member (ps : list ProductDoc.t) (prod : ProductDoc.t) :
  NoDup (map ProductDoc._id ps) -> In prod ps ->
  List.find (id_is (ProductDoc._id prod)) ps = Some prod.
Proof.
  induction ps as [|a ps IH]; intros Hnd Hin; [destruct Hin|].
  inversion Hnd as [|x l Hnotin Hnd']; subst.
  cbn [List.find]. unfold id_is at 1.
  destruct (N.eqb_spec (ProductDoc._id a) (ProductDoc._id prod)) as [E|E].
  - destruct Hin as [->|Hin]; [reflexivity|].
    exfalso. apply Hnotin. rewrite E. apply in_map. exact Hin.
  - destruct Hin as [->|Hin]; [congruence|]. apply IH; assumption.
Qed.

(** X5: [get_cart] leaves the store as it is.  When it answers, the
    entries are the user's rows in store order: each carries the row's
    fields, the text of the row's [_id] as [id], and as [product] the
    fields the referenced product has in the catalog now (none when
    the catalog has no such product). *)
Theorem get_cart_entries (u : string) (d : DB) :
  snd (get_cart u d) = d
  /\ forall l,
       fst (get_cart u d) = inr l ->
       map CartEntry.item l = map body (filter (user_id_is u) (cartitem d))
       /\ map CartEntry.id l
          = map (fun r => oid_str (_id r)) (filter (user_id_is u) (cartitem d))
       /\ Forall2
            (fun r e =>
               exists oid,
                 ObjectId_of_str (CartItem.product_id (body r)) = Some oid
                 /\ CartEntry.product e
                    = option_map ProductFields.of_doc
                        (List.find (id_is oid) (product d)))
            (filter (user_id_is u) (cartitem d)) l.
Proof.
  rewrite get_cart_run. split; [reflexivity|]. cbn [fst]. intros l H.
  apply comprehension_forall2 in H.
  induction H as [|r e rs es Hre _ [IH1 [IH2 IH3]]].
  - repeat split. constructor.
  - destruct (joined_fields _ _ _ Hre) as [Hi [Hid Hp]].
    cbn [map]. rewrite Hi, Hid, IH1, IH2. repeat split. constructor; assumption.
Qed.

Lemma get_cart_entries_witness :
  exists l,
    fst (get_cart "u1" Sample.db_cart) = inr l
    /\ map CartEntry.id l = [oid_str 2%N; oid_str 3%N]
    /\ map (fun e => CartItem.quantity (CartEntry.item e)) l = [2%Z; 1%Z].
Proof.
  destruct (fst (get_cart "u1" Sample.db_cart)) as [e|l] eqn:E; [discriminate E|].
  exists l. split; [reflexivity|].
  destruct (proj2 (get_cart_entries "u1" Sample.db_cart) l E) as [Hi [Hid _]].
  split; [exact Hid|].
  rewrite <- (map_map CartEntry.item CartItem.quantity), Hi. reflexivity.
Defined.

(** X6: a row whose [product_id] bson's [ObjectId(...)] rejects (it has
    not 24 characters, or [bytes.fromhex] cannot read it) makes
    [get_cart] raise [InvalidId], the store unchanged, while [checkout]
    for the same user still answers ok: only [checkout] wraps the
    conversion in a [try]. *)
Theorem get_cart_raises_where_checkout_answers
  (u : string) (d : DB) (r : Doc CartItem.t) :
  In r (filter (user_id_is u) (cartitem d)) ->
  is_valid (CartItem.product_id (body r)) = false ->
  (exists s, get_cart u d = (inl (InvalidId s), d))
  /\ exists d',
       checkout (CheckoutRequest.mk u) d = (inr (OkOrder (oid_str (next_oid d))), d').
Proof.
  intros Hin Hbad. split.
  - rewrite get_cart_run.
    assert (Hr : joined (product d) r = inl (InvalidId (CartItem.product_id (body r)))).
    { unfold joined. unfold is_valid in Hbad.
      destruct (ObjectId_of_str (CartItem.product_id (body r))); [discriminate|reflexivity]. }
    destruct (comprehension_fails _ _ _ _ Hin Hr) as [e' He'].
    destruct (comprehension_error _ _ _ He') as [x [_ Hx]].
    rewrite He'. unfold joined in Hx.
    destruct (ObjectId_of_str (CartItem.product_id (body x))); [discriminate|].
    injection Hx as <-. eexists. reflexivity.
  - rewrite CheckoutFacts.checkout_run. cbn [CheckoutRequest.user_id].
    destruct (filter (user_id_is u) (cartitem d)); [destruct Hin|].
    eexists. reflexivity.
Qed.

Lemma get_cart_raises_where_checkout_answers_witness :
  get_cart "u1" Sample.db_dangling = (inl (InvalidId "deleted"), Sample.db_dangling)
  /\ fst (checkout (CheckoutRequest.mk "u1") Sample.db_dangling)
     = inr (OkOrder (oid_str 6%N)).
Proof.
  destruct (get_cart_raises_where_checkout_answers "u1" Sample.db_dangling
              (mkDoc 4%N (CartItem.mk "u1" "deleted" 1%Z None None [] 5%float)))
    as [[s Hs] [d' Hd']].
  - right. right. left. reflexivity.
  - reflexivity.
  - split; [reflexivity | rewrite Hd'; reflexivity].
Defined.

(** X7: a row put in the cart is read back.  After an [add_to_cart] that
    found its product (with unique product ids, the product's id a
    genuine ObjectId), [get_cart] answers with the entries it answered
    before and one more: the new row, with the quantity asked, the base
    price of the product as [unit_price], and the product joined. *)
Theorem add_then_get_cart
  (b : AddToCart.t) (d : DB) (prod : ProductDoc.t) (l : list CartEntry.t) :
  find_one product_coll (slug_is (AddToCart.product_slug b)) d = (inr (Some prod), d) ->
  (1 <= AddToCart.quantity b)%Z ->
  float_ge0 (price_of prod) = true ->
  NoDup (map ProductDoc._id (product d)) ->
  (ProductDoc._id prod < oid_bound)%N ->
  fst (get_cart (AddToCart.user_id b) d) = inr l ->
  exists e,
    fst (get_cart (AddToCart.user_id b) (snd (add_to_cart b d))) = inr (l ++ [e])
    /\ CartEntry.id e = oid_str (next_oid d)
    /\ CartItem.quantity (CartEntry.item e) = AddToCart.quantity b
    /\ CartItem.unit_price (CartEntry.item e) = price_of prod
    /\ CartEntry.product e = Some (ProductFields.of_doc prod).
Proof.
  intros Hfind Hq Hp Hnd Hid Hl. apply find_one_product in Hfind.
  assert (Hok : CartItem.errors (new_cart_item b prod) = [])
    by (apply cart_item_errors_nil; split; assumption).
  exists (CartEntry.mk (oid_str (next_oid d)) (new_cart_item b prod)
            (Some (ProductFields.of_doc prod))).
  split; [|repeat split].
  rewrite get_cart_run in Hl. cbn [fst] in Hl.
  rewrite add_to_cart_run, Hfind, Hok. cbn [snd].
  rewrite get_cart_run. cbn [fst product cartitem].
  rewrite filter_app. cbn [filter]. unfold user_id_is at 2.
  cbn [body new_cart_item CartItem.user_id]. rewrite String.eqb_refl.
  apply comprehension_app; [exact Hl|].
  cbn [comprehension]. unfold joined.
  cbn [body _id new_cart_item CartItem.product_id].
  rewrite BsonFacts.ObjectId_of_str_oid_str by exact Hid.
  rewrite find_id_of_member; [reflexivity | exact Hnd |].
  apply (find_some _ _ Hfind).
Qed.

Lemma add_then_get_cart_witness :
  exists e,
    fst (get_cart "u1" (snd (add_to_cart Sample.add_pencil Sample.db_catalog))) = inr [e]
    /\ CartItem.unit_price (CartEntry.item e) = 10%float
    /\ CartEntry.product e
       = Some (ProductFields.of_doc (ProductDoc.of_model 0%N Sample.pencil)).
Proof.
  destruct (add_then_get_cart Sample.add_pencil Sample.db_catalog
              (ProductDoc.of_model 0%N Sample.pencil) [])
    as [e [E [_ [_ [Hp Hprod]]]]].
  - reflexivity.
  - simpl. lia.
  - reflexivity.
  - repeat constructor; simpl; intuition discriminate.
  - reflexivity.
  - reflexivity.
  - exists e. split; [exact E|]. split; [exact Hp | exact Hprod].
Defined.

End CartViewSpec.

(** ** [ObjectIdStr] *)

Module ObjectIdStrSpec.

Lemma hex_is_no_space (c : ascii) : hex_value c <> None -> is_space c = false.
Proof.
  destruct c as [b0 b1 b2 b3 b4 b5 b6 b7].
  destruct b0, b1, b2, b3, b4, b5, b6, b7; intros H;
    first [reflexivity | exfalso; apply H; reflexivity].
Qed.

Lemma fromhex_reads_hex_bytes (n : nat) :
  forall s, (String.length s <= n)%nat ->
  forall count a, (exists r, fromhex s count a = Some r) <-> hex_bytes s.
Proof.
  induction n as [|n IH]; intros s Hlen count a.
  - destruct s; [|simpl in Hlen; lia].
    split; [intros _; constructor | intros _; eexists; reflexivity].
  - destruct s as [|c s]; [split; [intros _; constructor | intros _; eexists; reflexivity]|].
    cbn [String.length] in Hlen. cbn [fromhex].
    destruct (is_space c) eqn:Esp.
    + rewrite (IH s ltac:(lia)). split.
      * intros H. apply hex_bytes_space; assumption.
      * intros H. inversion H as [|c0 s0 _ Hs|hi lo s0 Hhi _ _]; subst; [exact Hs|].
        apply hex_is_no_space in Hhi. congruence.
    + destruct (hex_value c) as [hi|] eqn:Ehi.
      * destruct s as [|c' s'].
        { split; [intros [r Hr]; discriminate|].
          intros H. exfalso. inversion H; subst. congruence. }
        cbn [String.length] in Hlen.
        destruct (hex_value c') as [lo|] eqn:Elo.
        { rewrite (IH s' ltac:(lia)). split.
          - intros H. apply hex_bytes_byte; [congruence | congruence | exact H].
          - intros H. inversion H as [|c0 s0 Hc0 _|hi0 lo0 s0 _ _ Hs]; subst;
              [congruence | exact Hs]. }
        { split; [intros [r Hr]; discriminate|].
          intros H. exfalso.
          inversion H as [|c0 s0 Hc0 _|hi0 lo0 s0 _ Hlo _]; subst;
            [congruence | apply Hlo; exact Elo]. }
      * split; [intros [r Hr]; discriminate|].
        intros H. exfalso.
        inversion H as [|c0 s0 Hc0 _|hi0 lo0 s0 Hhi _ _]; subst;
          [congruence | apply Hhi; exact Ehi].
Qed.

(** X19: [ObjectIdStr.validate], for a [str] argument, returns the string
    unchanged exactly when it has 24 characters that [bytes.fromhex]
    reads (bytes of two hexadecimal digits, ASCII whitespace allowed in
    front of a byte and at the end), and raises
    [ValueError("Invalid ObjectId")] otherwise.  It accepts the text of
    every ObjectId, and also texts that are the text of none, such as 24
    spaces. *)
Theorem objectidstr_validate_accepts (v : string) (o : ObjectId) :
  (ObjectIdStr_validate v = inr v <-> String.length v = 24%nat /\ hex_bytes v)
  /\ (ObjectIdStr_validate v = inr v
      \/ ObjectIdStr_validate v = inl (ValueError "Invalid ObjectId"))
  /\ ObjectIdStr_validate (oid_str o) = inr (oid_str o)
  /\ ObjectIdStr_validate blank24 = inr blank24
  /\ (forall o', oid_str o' <> blank24).
Proof.
  split; [|split; [|split; [|split]]].
  - unfold ObjectIdStr_validate, is_valid, ObjectId_of_str.
    destruct (Nat.eqb_spec (String.length v) 24) as [El|El].
    + destruct (fromhex v 0 0%N) as [[count value]|] eqn:Ef; cbn [negb]; split.
      * intros _. split; [exact El|].
        apply (fromhex_reads_hex_bytes 24 v ltac:(lia) 0%nat 0%N).
        eexists. exact Ef.
      * reflexivity.
      * discriminate.
      * intros [_ Hb]. apply (fromhex_reads_hex_bytes 24 v ltac:(lia) 0%nat 0%N) in Hb.
        destruct Hb as [r Hr]. congruence.
    + cbn [negb]. split; [discriminate | intros [H _]; contradiction].
  - unfold ObjectIdStr_validate. destruct (is_valid v); [left | right]; reflexivity.
  - unfold ObjectIdStr_validate. rewrite BsonFacts.is_valid_oid_str. reflexivity.
  - reflexivity.
  - intros o' H. apply (f_equal (fun s => fromhex s 0%nat 0%N)) in H.
    rewrite BsonFacts.fromhex_oid_str in H. vm_compute in H. discriminate H.
Qed.

End ObjectIdStrSpec.

(** ** What a request can do to the store *)

Module StoreFacts.
Import QueryFacts CartFacts.

(** The whole of [create_product_endpoint], in one equation. *)
Lemma create_product_run (p : Product.t) (d : DB) :
  create_product_endpoint p d
  = match List.find (slug_is (Product.slug p)) (product d) with
    | Some _ => (inl (HTTPException 400 "Slug already exists"), d)
    | None =>
        (inr Ok,
         mkDB (product d ++ [ProductDoc.of_model (next_oid d) p])
              (cartitem d) (order d) (subscription d) (N.succ (next_oid d)))
    end.
Proof.
  unfold create_product_endpoint, bind, find_one. cbn [docs product_coll].
  destruct (List.find (slug_is (Product.slug p)) (product d)); reflexivity.
Qed.

Lemma frozen_update_first (oid : ObjectId) (delta : Z) (ps : list ProductDoc.t) :
  map frozen (update_first (id_is oid) (inc_inventory delta) ps) = map frozen ps.
Proof.
  induction ps as [|p ps IH]; cbn [update_first map]; [reflexivity|].
  destruct (id_is oid p); cbn [map]; [reflexivity | rewrite IH; reflexivity].
Qed.

Lemma frozen_apply_decrement (ps : list ProductDoc.t) (it : Doc CartItem.t) :
  map frozen (apply_decrement ps it) = map frozen ps.
Proof.
  unfold apply_decrement.
  destruct (ObjectId_of_str (CartItem.product_id (body it)));
    [apply frozen_update_first | reflexivity].
Qed.

Lemma frozen_fold_decrement (items : list (Doc CartItem.t)) :
  forall ps, map frozen (fold_left apply_decrement items ps) = map frozen ps.
Proof.
  induction items as [|it items IH]; intros ps; cbn [fold_left]; [reflexivity|].
  rewrite IH. apply frozen_apply_decrement.
Qed.

(** One request of [App]: the products keep everything but their
    inventory and at most one validated product with a new slug is
    appended; orders and subscriptions are only appended to. *)
Lemma handle_step (r : App.request) (d : DB) :
  ((map frozen (product (snd (App.handle r d))) = map frozen (product d))
   \/ exists p,
        Product.errors p = []
        /\ List.find (slug_is (Product.slug p)) (product d) = None
        /\ product (snd (App.handle r d))
           = product d ++ [ProductDoc.of_model (next_oid d) p])
  /\ (exists os, order (snd (App.handle r d)) = order d ++ os)
  /\ (exists ss, subscription (snd (App.handle r d)) = subscription d ++ ss).
Proof.
  destruct r as [p|b|req|req|slug]; cbn [App.handle].
  - destruct (Product.errors p) eqn:Ep.
    + rewrite create_product_run.
      destruct (List.find (slug_is (Product.slug p)) (product d)) eqn:Ef; cbn [snd].
      * split; [left; reflexivity|].
        split; exists []; rewrite app_nil_r; reflexivity.
      * split; [right; exists p; repeat split; assumption|].
        split; exists []; rewrite app_nil_r; reflexivity.
    + split; [left; reflexivity|]. split; exists []; rewrite app_nil_r; reflexivity.
  - rewrite add_to_cart_run.
    destruct (List.find _ (product d)) as [prod|];
      [destruct (CartItem.errors (new_cart_item b prod))|];
      (split; [left; reflexivity|]; split; exists []; rewrite app_nil_r; reflexivity).
  - rewrite CheckoutFacts.checkout_run.
    destruct (filter (user_id_is (CheckoutRequest.user_id req)) (cartitem d)) as [|it items].
    + split; [left; reflexivity|]. split; exists []; rewrite app_nil_r; reflexivity.
    + cbn [snd product order subscription].
      split; [left; apply frozen_fold_decrement|].
      split; [eexists; reflexivity | exists []; rewrite app_nil_r; reflexivity].
  - rewrite SubscriptionSpec.create_subscription_run.
    destruct (List.find _ (product d)) as [prod|];
      [destruct (Subscription.validate _ _ _ _)|]; cbn [snd product order subscription];
      (split; [left; reflexivity|]; split;
       [exists []; rewrite app_nil_r; reflexivity|]);
      first [eexists; reflexivity | exists []; rewrite app_nil_r; reflexivity].
  - rewrite get_inventory_keeps_store.
    split; [left; reflexivity|]. split; exists []; rewrite app_nil_r; reflexivity.
Qed.

Lemma api_handle_store (r : Api.request) (d : DB) :
  snd (Api.handle r d)
  = match r with Api.Core r => snd (App.handle r d) | _ => d end.
Proof.
  destruct r as [r| | |u]; cbn [Api.handle].
  - unfold bind. destruct (App.handle r d) as [[e|x] d']; reflexivity.
  - reflexivity.
  - unfold bind. rewrite ViewFacts.list_products_run.
    destruct (comprehension _ _); reflexivity.
  - unfold bind. rewrite ViewFacts.get_cart_run.
    destruct (comprehension _ _); reflexivity.
Qed.

(** What every request of [App] keeps, the whole application keeps. *)
Lemma serve_invariant (P : DB -> Prop) :
  (forall r d, P d -> P (snd (App.handle r d))) ->
  forall reqs d, P d -> P (Api.serve reqs d).
Proof.
  intros Hstep. unfold Api.serve.
  induction reqs as [|r reqs IH]; intros d Hd; cbn [fold_left]; [exact Hd|].
  apply IH. rewrite api_handle_store.
  destruct r; [apply Hstep|..]; exact Hd.
Qed.

(** The cart rows after one request: those that were there, and at most
    one row built by [add_to_cart]. *)
Lemma handle_cart_rows (P : Doc CartItem.t -> Prop) (r : App.request) (d : DB) :
  (forall b prod oid,
      CartItem.errors (new_cart_item b prod) = [] -> P (mkDoc oid (new_cart_item b prod))) ->
  Forall P (cartitem d) -> Forall P (cartitem (snd (App.handle r d))).
Proof.
  intros Hnew Hd. destruct r as [p|b|req|req|slug]; cbn [App.handle].
  - destruct (Product.errors p); [rewrite create_product_keeps_cart|]; exact Hd.
  - rewrite add_to_cart_run.
    destruct (List.find _ (product d)) as [prod|]; [|exact Hd].
    destruct (CartItem.errors (new_cart_item b prod)) eqn:E; [|exact Hd].
    cbn [snd cartitem]. apply Forall_app. split; [exact Hd|].
    constructor; [apply Hnew; exact E | constructor].
  - rewrite CheckoutFacts.checkout_run.
    destruct (filter (user_id_is (CheckoutRequest.user_id req)) (cartitem d)); [exact Hd|].
    cbn [snd cartitem]. apply Forall_forall. intros x Hx. apply filter_In in Hx.
    rewrite Forall_forall in Hd. apply Hd. apply Hx.
  - rewrite create_subscription_keeps_cart. exact Hd.
  - rewrite get_inventory_keeps_store. exact Hd.
Qed.

Lemma slug_frozen (ps : list ProductDoc.t) :
  map ProductDoc.slug ps = map ProductDoc.slug (map frozen ps).
Proof. rewrite map_map. reflexivity. Qed.

Lemma listable_same_prices (ps qs : list ProductDoc.t) :
  map ProductDoc.base_price ps = map ProductDoc.base_price qs ->
  Forall listable qs -> Forall listable ps.
Proof.
  revert qs. induction ps as [|p ps IH]; intros [|q qs] H Hq; try discriminate H.
  - constructor.
  - cbn [map] in H. injection H as Hpq Hrest.
    inversion Hq as [|x l Hlq Hqs]; subst. constructor; [|eapply IH; eassumption].
    destruct Hlq as [price [Hb Hg]]. exists price. split; [congruence | exact Hg].
Qed.

Lemma listable_frozen (ps qs : list ProductDoc.t) :
  map frozen ps = map frozen qs -> Forall listable qs -> Forall listable ps.
Proof.
  intros H. apply listable_same_prices.
  apply (f_equal (map ProductDoc.base_price)) in H.
  rewrite !map_map in H. exact H.
Qed.

(** Over any sequence of requests the products stay in place, in every
    field but [inventory]. *)
Lemma serve_products_grow (reqs : list Api.request) (d : DB) :
  exists ps, map frozen (product (Api.serve reqs d)) = map frozen (product d) ++ ps.
Proof.
  revert d. induction reqs as [|r reqs IH]; intros d.
  - exists []. cbn. rewrite app_nil_r. reflexivity.
  - unfold Api.serve. cbn [fold_left]. fold (Api.serve reqs (snd (Api.handle r d))).
    destruct (IH (snd (Api.handle r d))) as [ps Hp].
    rewrite Hp, api_handle_store. clear Hp.
    destruct r as [r| | |u]; cbv iota; try (exists ps; reflexivity).
    destruct (handle_step r d) as [[Hsame|[p [_ [_ Hnew]]]] _].
    + rewrite Hsame. exists ps. reflexivity.
    + rewrite Hnew, map_app, <- app_assoc. eexists. reflexivity.
Qed.

Lemma find_slug_frozen (s : string) (ps : list ProductDoc.t) :
  List.find (slug_is s) (map frozen ps) = option_map frozen (List.find (slug_is s) ps).
Proof.
  induction ps as [|p ps IH]; cbn [map List.find]; [reflexivity|].
  unfold slug_is at 1 3. cbn [frozen ProductDoc.set_inventory ProductDoc.slug].
  destruct (String.eqb (ProductDoc.slug p) s); [reflexivity | exact IH].
Qed.

Lemma find_app_some {A} (f : A -> bool) (l1 l2 : list A) (x : A) :
  List.find f l1 = Some x -> List.find f (l1 ++ l2) = Some x.
Proof.
  induction l1 as [|a l1 IH]; cbn [List.find app]; [discriminate|].
  destruct (f a); [intros H; exact H | exact IH].
Qed.

Lemma find_app_none {A} (f : A -> bool) (l1 l2 : list A) :
  List.find f l1 = None -> List.find f (l1 ++ l2) = List.find f l2.
Proof.
  induction l1 as [|a l1 IH]; cbn [List.find app]; [reflexivity|].
  destruct (f a); [discriminate | exact IH].
Qed.

(** The whole of [get_inventory], in one equation. *)
Lemma get_inventory_run (slug : string) (d : DB) :
  get_inventory slug d
  = match List.find (slug_is slug) (product d) with
    | None => (inl (HTTPException 404 "Product not found"), d)
    | Some prod =>
        (inr (Inventory (stock prod)
                (match ProductDoc.in_stock prod with Some b => b | None => true end)),
         d)
    end.
Proof.
  unfold get_inventory, bind, find_one. cbn [docs product_coll].
  destruct (List.find (slug_is slug) (product d)); reflexivity.
Qed.

End StoreFacts.

(** ** Invariants of the store *)

Module InvariantSpec.
Import QueryFacts CartFacts StoreFacts ViewFacts.

(** X8: slugs stay unique.  From a store in which no two products share a
    slug, no sequence of requests leads to a store in which two do. *)
Theorem slugs_stay_unique (reqs : list Api.request) (d : DB) :
  NoDup (map ProductDoc.slug (product d)) ->
  NoDup (map ProductDoc.slug (product (Api.serve reqs d))).
Proof.
  revert reqs d.
  apply (serve_invariant (fun d => NoDup (map ProductDoc.slug (product d)))).
  intros r d Hd. destruct (handle_step r d) as [[Hsame|[p [_ [Hf Hp]]]] _].
  - rewrite slug_frozen, Hsame, <- slug_frozen. exact Hd.
  - rewrite Hp, map_app. cbn [map ProductDoc.of_model ProductDoc.slug].
    apply NoDup_app; [exact Hd | repeat constructor; intros [] |].
    intros s Hs [<-|[]]. apply in_map_iff in Hs. destruct Hs as [q [Hq Hin]].
    pose proof (find_none _ _ Hf q Hin) as Hn. unfold slug_is in Hn.
    rewrite Hq, String.eqb_refl in Hn. discriminate.
Qed.

Lemma slugs_stay_unique_witness :
  NoDup (map ProductDoc.slug
           (product (Api.serve [Api.Core (App.PostProducts Sample.pencil);
                                Api.GetProducts;
                                Api.Core (App.PostProducts Sample.pencil);
                                Api.Core (App.PostProducts Sample.case_y2)]
                               App.empty_db))).
Proof.
  apply (slugs_stay_unique _ App.empty_db). constructor.
Defined.

(** X9: the catalog stays listable.  From a store in which every product
    has a base price that passes [ge=0], every sequence of requests leads
    to a store with the same property, and [list_products] answers
    there. *)
Theorem catalog_stays_listable (reqs : list Api.request) (d : DB) :
  catalog_listable d ->
  catalog_listable (Api.serve reqs d)
  /\ exists l, fst (list_products (Api.serve reqs d)) = inr l.
Proof.
  intros Hd.
  assert (H : catalog_listable (Api.serve reqs d)).
  { revert reqs d Hd. apply (serve_invariant catalog_listable).
    intros r d Hd. unfold catalog_listable in *.
    destruct (handle_step r d) as [[Hsame|[p [Hp [_ Hprod]]]] _].
    - eapply listable_frozen; eassumption.
    - rewrite Hprod. apply Forall_app. split; [exact Hd|].
      constructor; [|constructor].
      exists (Product.base_price p). split; [reflexivity|].
      unfold Product.errors in Hp.
      destruct (float_ge0 (Product.base_price p)); [reflexivity | discriminate]. }
  split; [exact H|].
  apply list_products_listable.
  unfold catalog_listable in H.
  rewrite <- (firstn_skipn 50 (product (Api.serve reqs d))) in H.
  apply Forall_app in H. apply H.
Qed.

Lemma catalog_stays_listable_witness :
  exists l,
    fst (list_products
           (Api.serve [Api.Core (App.PostCheckout (CheckoutRequest.mk "u1"));
                       Api.Core (App.PostProducts Sample.pencil)]
                      Sample.db_cart))
    = inr l.
Proof.
  apply (catalog_stays_listable
           [Api.Core (App.PostCheckout (CheckoutRequest.mk "u1"));
            Api.Core (App.PostProducts Sample.pencil)]
           Sample.db_cart).
  unfold catalog_listable. simpl.
  repeat (constructor; [eexists; split; reflexivity|]). constructor.
Defined.

(** X10: in a listable catalog, [add_to_cart] answers ok exactly when
    some product has the slug and the quantity is at least 1: nothing
    else, neither [in_stock] nor [inventory], is consulted. *)
Theorem add_to_cart_answers_iff (b : AddToCart.t) (d : DB) :
  catalog_listable d ->
  (fst (add_to_cart b d) = inr Ok
   <-> (exists p, In p (product d) /\ ProductDoc.slug p = AddToCart.product_slug b)
       /\ (1 <= AddToCart.quantity b)%Z).
Proof.
  intros Hd. rewrite add_to_cart_run. split.
  - destruct (List.find (slug_is (AddToCart.product_slug b)) (product d)) as [prod|] eqn:Ef;
      [|discriminate].
    destruct (find_some _ _ Ef) as [Hin Hs].
    destruct (CartItem.errors (new_cart_item b prod)) eqn:E; [|discriminate].
    intros _. apply cart_item_errors_nil in E. split; [|apply E].
    exists prod. split; [exact Hin|]. apply String.eqb_eq. exact Hs.
  - intros [Hex Hq]. destruct (find_slug_some _ _ Hex) as [prod Ef]. rewrite Ef.
    assert (Hok : CartItem.errors (new_cart_item b prod) = []).
    { apply cart_item_errors_nil. split; [exact Hq|].
      unfold catalog_listable in Hd. rewrite Forall_forall in Hd.
      destruct (Hd prod (proj1 (find_some _ _ Ef))) as [price [Hb Hg]].
      cbn [new_cart_item CartItem.unit_price]. unfold price_of. rewrite Hb. exact Hg. }
    rewrite Hok. reflexivity.
Qed.

Lemma add_to_cart_answers_iff_witness :
  fst (add_to_cart Sample.add_pencil Sample.db_catalog) = inr Ok
  /\ ~ fst (add_to_cart (AddToCart.mk "u1" "pencil-x1" 0%Z None None None)
              Sample.db_catalog) = inr Ok.
Proof.
  assert (Hd : catalog_listable Sample.db_catalog).
  { unfold catalog_listable. simpl.
    repeat (constructor; [eexists; split; reflexivity|]). constructor. }
  split.
  - apply (proj2 (add_to_cart_answers_iff Sample.add_pencil Sample.db_catalog Hd)).
    split; [|simpl; lia]. eexists. split; [left; reflexivity | reflexivity].
  - intros H.
    apply (proj1 (add_to_cart_answers_iff _ Sample.db_catalog Hd)) in H.
    destruct H as [_ H]. simpl in H. lia.
Defined.

(** X11: the store only grows, inventory counts apart.  Over any
    sequence of requests the orders and the subscriptions stored at the
    start are still there, unchanged and in place, with the later ones
    after them; and so are the products, in every field but
    [inventory]. *)
Theorem store_only_grows (reqs : list Api.request) (d : DB) :
  exists ps os ss,
    map frozen (product (Api.serve reqs d)) = map frozen (product d) ++ ps
    /\ order (Api.serve reqs d) = order d ++ os
    /\ subscription (Api.serve reqs d) = subscription d ++ ss.
Proof.
  revert d. induction reqs as [|r reqs IH]; intros d.
  - exists [], [], []. cbn. rewrite !app_nil_r. repeat split.
  - unfold Api.serve. cbn [fold_left]. fold (Api.serve reqs (snd (Api.handle r d))).
    destruct (IH (snd (Api.handle r d))) as [ps [os [ss [Hp [Ho Hs]]]]].
    rewrite Hp, Ho, Hs, api_handle_store. clear Hp Ho Hs.
    destruct r as [r| | |u]; cbv iota;
      try (exists ps, os, ss; repeat split; reflexivity).
    destruct (handle_step r d) as [Hprod [[os1 Ho1] [ss1 Hs1]]].
    rewrite Ho1, Hs1, <- !app_assoc.
    destruct Hprod as [Hsame|[p [_ [_ Hnew]]]].
    + rewrite Hsame. exists ps, (os1 ++ os), (ss1 ++ ss). repeat split.
    + rewrite Hnew, map_app, <- app_assoc. eexists _, (os1 ++ os), (ss1 ++ ss).
      repeat split.
Qed.

(** X12: the rows built by [add_to_cart] always name an ObjectId.  From
    a store whose cart rows all carry the text of an ObjectId as
    [product_id], every sequence of requests leads to such a store, and
    [get_cart] answers there for every user: it never meets the
    [InvalidId] it does not catch. *)
Theorem cart_ids_stay_valid (reqs : list Api.request) (d : DB) (u : string) :
  Forall row_id_valid (cartitem d) ->
  Forall row_id_valid (cartitem (Api.serve reqs d))
  /\ exists l, fst (get_cart u (Api.serve reqs d)) = inr l.
Proof.
  intros Hd.
  assert (H : Forall row_id_valid (cartitem (Api.serve reqs d))).
  { revert reqs d Hd.
    apply (serve_invariant (fun d => Forall row_id_valid (cartitem d))).
    intros r d Hd. apply handle_cart_rows; [|exact Hd].
    intros b prod oid _. apply BsonFacts.is_valid_oid_str. }
  split; [exact H|].
  rewrite get_cart_run. cbn [fst]. apply comprehension_all.
  apply Forall_forall. intros r Hr. apply filter_In in Hr.
  rewrite Forall_forall in H. apply joined_valid. apply H. apply Hr.
Qed.

Lemma cart_ids_stay_valid_witness :
  exists l,
    fst (get_cart "u1"
           (Api.serve [Api.Core (App.PostCartAdd Sample.add_case); Api.GetCart "u1"]
                      Sample.db_cart))
    = inr l.
Proof.
  apply (cart_ids_stay_valid
           [Api.Core (App.PostCartAdd Sample.add_case); Api.GetCart "u1"]
           Sample.db_cart "u1").
  repeat constructor.
Defined.

End InvariantSpec.

(** ** How the endpoints compose *)

Module CompositionFacts.
Import QueryFacts CartFacts StoreFacts.

Lemma filter_after_delete {A} (f : A -> bool) (l : list A) :
  filter f (filter (fun x => negb (f x)) l) = [].
Proof.
  induction l as [|x l IH]; cbn [filter]; [reflexivity|].
  destruct (f x) eqn:E; cbn [negb filter]; [exact IH | rewrite E; exact IH].
Qed.

Lemma filter_other {A} (f g : A -> bool) (l : list A) :
  (forall x, f x = true -> g x = false) ->
  filter f (filter (fun x => negb (g x)) l) = filter f l.
Proof.
  intros H. induction l as [|x l IH]; cbn [filter]; [reflexivity|].
  destruct (g x) eqn:Eg; cbn [negb filter].
  - destruct (f x) eqn:Ef; [rewrite (H x Ef) in Eg; discriminate | exact IH].
  - rewrite IH. reflexivity.
Qed.

Lemma user_id_is_other (u u' : string) (r : Doc CartItem.t) :
  u <> u' -> user_id_is u' r = true -> user_id_is u r = false.
Proof.
  unfold user_id_is. intros Hne H. apply String.eqb_eq in H.
  apply String.eqb_neq. congruence.
Qed.

Lemma update_first_no_match {D} (flt : D -> bool) (upd : D -> D) (l : list D) :
  (forall x, In x l -> flt x = false) -> update_first flt upd l = l.
Proof.
  induction l as [|x l IH]; intros H; cbn [update_first]; [reflexivity|].
  rewrite (H x (or_introl eq_refl)). f_equal. apply IH.
  intros y Hy. apply H. right. exact Hy.
Qed.

(** With unique ids, the product a slug finds is still what the slug
    finds after the product's own inventory was updated. *)
Lemma find_slug_after_update (s : string) (delta : Z) (ps : list ProductDoc.t)
      (prod : ProductDoc.t) :
  NoDup (map ProductDoc._id ps) ->
  List.find (slug_is s) ps = Some prod ->
  List.find (slug_is s)
    (update_first (id_is (ProductDoc._id prod)) (inc_inventory delta) ps)
  = Some (inc_inventory delta prod).
Proof.
  induction ps as [|a ps IH]; intros Hnd Hf; [discriminate|].
  inversion Hnd as [|x l Hnotin Hnd']; subst.
  cbn [List.find update_first] in *.
  destruct (slug_is s a) eqn:Es.
  - injection Hf as <-. unfold id_is at 1. rewrite N.eqb_refl.
    cbn [List.find]. unfold slug_is in *. cbn. rewrite Es. reflexivity.
  - unfold id_is at 1.
    destruct (N.eqb_spec (ProductDoc._id a) (ProductDoc._id prod)) as [E|E].
    + exfalso. apply Hnotin. rewrite E. apply in_map. apply (find_some _ _ Hf).
    + cbn [List.find]. rewrite Es. apply IH; assumption.
Qed.

Lemma item_for_products (d1 d2 : DB) (b : AddToCart.t) :
  product d1 = product d2 -> item_for d1 b = item_for d2 b.
Proof. unfold item_for. intros ->. reflexivity. Qed.

Lemma item_for_user (d : DB) (b : AddToCart.t) (c : CartItem.t) :
  In c (item_for d b) -> CartItem.user_id c = AddToCart.user_id b.
Proof.
  unfold item_for.
  destruct (List.find _ (product d)) as [prod|]; [|intros []].
  destruct (CartItem.errors (new_cart_item b prod)); [|intros []].
  intros [<-|[]]. reflexivity.
Qed.

(** A run of [add_to_cart] calls: the rows of the calls that passed are
    appended in order; nothing else changes. *)
Lemma serve_adds (bodies : list AddToCart.t) :
  forall d,
    product (App.serve (map App.PostCartAdd bodies) d) = product d
    /\ order (App.serve (map App.PostCartAdd bodies) d) = order d
    /\ subscription (App.serve (map App.PostCartAdd bodies) d) = subscription d
    /\ map body (cartitem (App.serve (map App.PostCartAdd bodies) d))
       = map body (cartitem d) ++ flat_map (item_for d) bodies.
Proof.
  induction bodies as [|b bodies IH]; intros d.
  - cbn. rewrite app_nil_r. repeat split.
  - unfold App.serve. cbn [map fold_left App.handle].
    fold (App.serve (map App.PostCartAdd bodies) (snd (add_to_cart b d))).
    destruct (IH (snd (add_to_cart b d))) as [Hp [Ho [Hs Hc]]].
    rewrite Hp, Ho, Hs, Hc. clear Hp Ho Hs Hc.
    assert (Hprod : product (snd (add_to_cart b d)) = product d).
    { rewrite add_to_cart_run.
      destruct (List.find _ (product d)) as [prod|];
        [destruct (CartItem.errors (new_cart_item b prod))|]; reflexivity. }
    rewrite (flat_map_ext _ _ (fun b' => item_for_products _ _ b' Hprod)).
    cbn [flat_map]. unfold item_for at 2. rewrite add_to_cart_run.
    destruct (List.find _ (product d)) as [prod|];
      [destruct (CartItem.errors (new_cart_item b prod))|]; cbn [snd product order
        subscription cartitem]; repeat split;
      rewrite ?map_app, <- ?app_assoc; reflexivity.
Qed.

Lemma body_filter (u : string) (rows : list (Doc CartItem.t)) :
  map body (filter (user_id_is u) rows)
  = filter (fun c => String.eqb (CartItem.user_id c) u) (map body rows).
Proof.
  induction rows as [|r rows IH]; cbn [filter map]; [reflexivity|].
  unfold user_id_is at 1.
  destruct (String.eqb (CartItem.user_id (body r)) u); cbn [map]; rewrite IH; reflexivity.
Qed.

Lemma filter_all {A} (f : A -> bool) (l : list A) :
  (forall x, In x l -> f x = true) -> filter f l = l.
Proof.
  induction l as [|x l IH]; intros H; cbn [filter]; [reflexivity|].
  rewrite (H x (or_introl eq_refl)). f_equal. apply IH.
  intros y Hy. apply H. right. exact Hy.
Qed.

End CompositionFacts.

Module CompositionSpec.
Import QueryFacts CartFacts StoreFacts CompositionFacts.

(** X13: a second [checkout] right after a first one always fails with
    the empty-cart error: either the first one cleared the cart, or the
    cart was empty already. *)
Theorem checkout_twice (req : CheckoutRequest.t) (d : DB) :
  fst (checkout req (snd (checkout req d)))
  = inl (HTTPException 400 "Cart is empty").
Proof.
  rewrite (CheckoutFacts.checkout_run req d).
  destruct (filter (user_id_is (CheckoutRequest.user_id req)) (cartitem d)) eqn:E;
    cbn [snd]; rewrite CheckoutFacts.checkout_run; cbn [cartitem].
  - rewrite E. reflexivity.
  - rewrite filter_after_delete. reflexivity.
Qed.

(** X14: what is sold leaves the inventory.  When a user with an empty
    cart adds [q] units of a product and checks out (unique product ids,
    the product's id a genuine ObjectId), the order's total is
    [0.0 + price * q] and [get_inventory] then reports the product's
    former stock less [q], whether or not the stock covers it. *)
Theorem sold_quantity_leaves_inventory (b : AddToCart.t) (d : DB) (prod : ProductDoc.t) :
  find_one product_coll (slug_is (AddToCart.product_slug b)) d = (inr (Some prod), d) ->
  (1 <= AddToCart.quantity b)%Z ->
  float_ge0 (price_of prod) = true ->
  NoDup (map ProductDoc._id (product d)) ->
  (ProductDoc._id prod < oid_bound)%N ->
  filter (user_id_is (AddToCart.user_id b)) (cartitem d) = [] ->
  exists stocked o d2,
    checkout (CheckoutRequest.mk (AddToCart.user_id b)) (snd (add_to_cart b d))
    = (inr (OkOrder (oid_str (N.succ (next_oid d)))), d2)
    /\ order d2 = order d ++ [o]
    /\ Order.total_amount (body o)
       = (0 + price_of prod * float_of_int (AddToCart.quantity b))%float
    /\ get_inventory (AddToCart.product_slug b) d2
       = (inr (Inventory (stock prod - AddToCart.quantity b)%Z stocked), d2).
Proof.
  intros Hfind Hq Hp Hnd Hid Hempty. apply find_one_product in Hfind.
  assert (Hok : CartItem.errors (new_cart_item b prod) = [])
    by (apply cart_item_errors_nil; split; assumption).
  rewrite add_to_cart_run, Hfind, Hok. cbn [snd].
  rewrite CheckoutFacts.checkout_run.
  cbn [CheckoutRequest.user_id cartitem product order subscription next_oid].
  rewrite filter_app, Hempty. cbn [filter app]. unfold user_id_is at 1.
  cbn [body new_cart_item CartItem.user_id]. rewrite String.eqb_refl.
  cbn [fold_left]. unfold apply_decrement.
  cbn [body new_cart_item CartItem.product_id CartItem.quantity].
  rewrite BsonFacts.ObjectId_of_str_oid_str by exact Hid.
  eexists _, _, _. split; [reflexivity|]. cbn [order]. split; [reflexivity|].
  split; [reflexivity|].
  unfold get_inventory, bind, find_one. cbn [docs product_coll product].
  rewrite (find_slug_after_update _ _ _ _ Hnd Hfind).
  unfold ret. f_equal. f_equal.
  change (match ProductDoc.inventory (inc_inventory (- AddToCart.quantity b) prod) with
          | Some n => n
          | None => 0%Z
          end) with (stock (inc_inventory (- AddToCart.quantity b) prod)).
  rewrite CheckoutFacts.stock_inc_inventory.
  reflexivity.
Qed.

Lemma sold_quantity_leaves_inventory_witness :
  exists stocked,
    get_inventory "pencil-x1"
      (snd (checkout (CheckoutRequest.mk "u1")
              (snd (add_to_cart Sample.add_pencil Sample.db_catalog))))
    = (inr (Inventory 98%Z stocked),
       snd (checkout (CheckoutRequest.mk "u1")
              (snd (add_to_cart Sample.add_pencil Sample.db_catalog)))).
Proof.
  destruct (sold_quantity_leaves_inventory Sample.add_pencil Sample.db_catalog
              (ProductDoc.of_model 0%N Sample.pencil))
    as [stocked [o [d2 [E [_ [_ Hg]]]]]].
  - reflexivity.
  - simpl. lia.
  - reflexivity.
  - repeat constructor; simpl; intuition discriminate.
  - reflexivity.
  - reflexivity.
  - pose proof (f_equal snd E) as Hd2. cbn [snd] in Hd2. subst d2.
    exists stocked. exact Hg.
Defined.

(** X15: one user's requests leave the other users' carts alone:
    neither [add_to_cart] nor [checkout] for a user changes the rows
    stored for a different user. *)
Theorem other_carts_untouched (u' : string) (d : DB) :
  (forall b, AddToCart.user_id b <> u' ->
             filter (user_id_is u') (cartitem (snd (add_to_cart b d)))
             = filter (user_id_is u') (cartitem d))
  /\ (forall req, CheckoutRequest.user_id req <> u' ->
                  filter (user_id_is u') (cartitem (snd (checkout req d)))
                  = filter (user_id_is u') (cartitem d)).
Proof.
  split.
  - intros b Hne. rewrite add_to_cart_run.
    destruct (List.find _ (product d)) as [prod|]; [|reflexivity].
    destruct (CartItem.errors (new_cart_item b prod)); [|reflexivity].
    cbn [snd cartitem]. rewrite filter_app. cbn [filter]. unfold user_id_is at 2.
    cbn [body new_cart_item CartItem.user_id].
    destruct (String.eqb_spec (AddToCart.user_id b) u'); [contradiction|].
    apply app_nil_r.
  - intros req Hne. rewrite CheckoutFacts.checkout_run.
    destruct (filter (user_id_is (CheckoutRequest.user_id req)) (cartitem d));
      [reflexivity|].
    cbn [snd cartitem]. apply filter_other.
    intros x. apply user_id_is_other. exact Hne.
Qed.

Lemma other_carts_untouched_witness :
  filter (user_id_is "u2")
    (cartitem (snd (checkout (CheckoutRequest.mk "u1") Sample.db_dangling)))
  = [mkDoc 5%N (CartItem.mk "u2" (oid_str 1%N) 1%Z None None [] 5%float)].
Proof.
  rewrite (proj2 (other_carts_untouched "u2" Sample.db_dangling)
             (CheckoutRequest.mk "u1")).
  - reflexivity.
  - discriminate.
Defined.

(** X16: the cart accumulates.  After a run of [add_to_cart] calls of one
    user whose cart was empty, [checkout] persists an order whose items
    are the rows of the calls that passed, one per call and in call
    order, each at the base price its product had, and whose total is
    their sum; the calls that failed contribute nothing. *)
Theorem adds_then_checkout (u : string) (bodies : list AddToCart.t) (d : DB) :
  Forall (fun b => AddToCart.user_id b = u) bodies ->
  filter (user_id_is u) (cartitem d) = [] ->
  flat_map (item_for d) bodies <> [] ->
  exists oid o d',
    checkout (CheckoutRequest.mk u) (App.serve (map App.PostCartAdd bodies) d)
    = (inr (OkOrder oid), d')
    /\ order d' = order d ++ [o]
    /\ Order.items (body o) = flat_map (item_for d) bodies
    /\ Order.total_amount (body o) = sum_line_totals (flat_map (item_for d) bodies).
Proof.
  intros Hu Hempty Hne.
  destruct (serve_adds bodies d) as [_ [Ho [_ Hc]]].
  assert (Hrows : map body (filter (user_id_is u)
                              (cartitem (App.serve (map App.PostCartAdd bodies) d)))
                  = flat_map (item_for d) bodies).
  { rewrite body_filter, Hc, filter_app, <- body_filter, Hempty. cbn [map app].
    apply filter_all. intros c Hc'. apply in_flat_map in Hc'.
    destruct Hc' as [b [Hb Hcb]]. rewrite (item_for_user _ _ _ Hcb).
    rewrite Forall_forall in Hu. rewrite (Hu b Hb). apply String.eqb_refl. }
  rewrite CheckoutFacts.checkout_run. cbn [CheckoutRequest.user_id].
  destruct (filter (user_id_is u) (cartitem (App.serve (map App.PostCartAdd bodies) d)))
    as [|it items] eqn:E.
  - exfalso. apply Hne. rewrite <- Hrows. reflexivity.
  - eexists _, _, _. split; [reflexivity|]. cbn [order]. rewrite Ho.
    split; [reflexivity|]. cbn [body Order.items Order.total_amount].
    rewrite Hrows. split; reflexivity.
Qed.

Lemma adds_then_checkout_witness :
  exists oid o d',
    checkout (CheckoutRequest.mk "u1")
      (App.serve (map App.PostCartAdd
                    [Sample.add_pencil;
                     AddToCart.mk "u1" "eraser-z9" 3%Z None None None;
                     Sample.add_case])
                 Sample.db_catalog)
    = (inr (OkOrder oid), d')
    /\ order d' = [o]
    /\ map CartItem.quantity (Order.items (body o)) = [2%Z; 1%Z]
    /\ Order.total_amount (body o) = 25%float.
Proof.
  destruct (adds_then_checkout "u1"
              [Sample.add_pencil;
               AddToCart.mk "u1" "eraser-z9" 3%Z None None None;
               Sample.add_case]
              Sample.db_catalog)
    as [oid [o [d' [E [Ho [Hi Ht]]]]]].
  - repeat constructor.
  - reflexivity.
  - vm_compute. discriminate.
  - exists oid, o, d'. split; [exact E|]. split; [exact Ho|].
    rewrite Hi, Ht. split; vm_compute; reflexivity.
Defined.

(** X17: subscriptions are never merged or refused as duplicates: the
    same valid request sent twice answers ok twice and stores two
    subscriptions with the same fields (the user, the product's id, the
    plan, status active, the refill quantity) under two different ids,
    each call answering with the id of its own document. *)
Theorem subscriptions_are_not_merged
  (req : SubscriptionRequest.t) (d : DB) (prod : ProductDoc.t) (p : Subscription.plan) :
  find_one product_coll (slug_is (SubscriptionRequest.product_slug req)) d
  = (inr (Some prod), d) ->
  Subscription.plan_of_string (SubscriptionRequest.plan req) = Some p ->
  (1 <= SubscriptionRequest.refill_quantity req)%Z ->
  exists id1 id2,
    id1 <> id2
    /\ fst (create_subscription req d) = inr (OkSubscription (oid_str id1))
    /\ fst (create_subscription req (snd (create_subscription req d)))
       = inr (OkSubscription (oid_str id2))
    /\ subscription (snd (create_subscription req (snd (create_subscription req d))))
       = subscription d
         ++ [mkDoc id1
               (Subscription.mk (SubscriptionRequest.user_id req)
                  (oid_str (ProductDoc._id prod)) p Subscription.active
                  (SubscriptionRequest.refill_quantity req));
             mkDoc id2
               (Subscription.mk (SubscriptionRequest.user_id req)
                  (oid_str (ProductDoc._id prod)) p Subscription.active
                  (SubscriptionRequest.refill_quantity req))].
Proof.
  intros Hfind Hp Hr. apply find_one_product in Hfind.
  assert (Hv : Subscription.validate (SubscriptionRequest.user_id req)
                 (oid_str (ProductDoc._id prod)) (SubscriptionRequest.plan req)
                 (SubscriptionRequest.refill_quantity req)
               = inr (Subscription.mk (SubscriptionRequest.user_id req)
                        (oid_str (ProductDoc._id prod)) p Subscription.active
                        (SubscriptionRequest.refill_quantity req))).
  { unfold Subscription.validate, Subscription.errors. rewrite Hp.
    destruct (Z.leb_spec 1 (SubscriptionRequest.refill_quantity req)); [|exfalso; lia].
    reflexivity. }
  exists (next_oid d), (N.succ (next_oid d)).
  split; [lia|].
  rewrite (SubscriptionSpec.create_subscription_run req d), Hfind, Hv. cbn [fst snd].
  split; [reflexivity|].
  rewrite SubscriptionSpec.create_subscription_run. cbn [product]. rewrite Hfind, Hv.
  cbn [fst snd subscription next_oid]. rewrite <- app_assoc.
  split; reflexivity.
Qed.

Lemma subscriptions_are_not_merged_witness :
  exists id1 id2 sub,
    id1 <> id2
    /\ subscription
         (snd (create_subscription (SubscriptionRequest.mk "u1" "case-y2" "yearly" 1%Z)
                 (snd (create_subscription
                         (SubscriptionRequest.mk "u1" "case-y2" "yearly" 1%Z)
                         Sample.db_catalog))))
       = [mkDoc id1 sub; mkDoc id2 sub].
Proof.
  destruct (subscriptions_are_not_merged
              (SubscriptionRequest.mk "u1" "case-y2" "yearly" 1%Z) Sample.db_catalog
              (ProductDoc.of_model 1%N Sample.case_y2) Subscription.yearly)
    as [id1 [id2 [Hne [_ [_ Hs]]]]].
  - reflexivity.
  - reflexivity.
  - simpl. lia.
  - exists id1, id2. eexists. split; [exact Hne | exact Hs].
Defined.

(** X18: a cart none of whose rows references a stored product, because
    the product is gone or the [product_id] is no ObjectId, checks out
    all the same, and the product collection is left exactly as it was. *)
Theorem checkout_of_orphan_rows (req : CheckoutRequest.t) (d : DB) :
  filter (user_id_is (CheckoutRequest.user_id req)) (cartitem d) <> [] ->
  (forall it p,
      In it (filter (user_id_is (CheckoutRequest.user_id req)) (cartitem d)) ->
      In p (product d) -> references (ProductDoc._id p) it = false) ->
  fst (checkout req d) = inr (OkOrder (oid_str (next_oid d)))
  /\ product (snd (checkout req d)) = product d.
Proof.
  intros Hne Horphan. rewrite CheckoutFacts.checkout_run.
  destruct (filter (user_id_is (CheckoutRequest.user_id req)) (cartitem d))
    as [|it0 items0] eqn:E; [contradiction|].
  cbn [fst snd product]. split; [reflexivity|].
  revert Horphan. generalize (it0 :: items0). intros items.
  induction items as [|it items IH]; intros H; cbn [fold_left]; [reflexivity|].
  assert (Hit : apply_decrement (product d) it = product d).
  { unfold apply_decrement.
    destruct (ObjectId_of_str (CartItem.product_id (body it))) as [oid|] eqn:Eo;
      [|reflexivity].
    apply update_first_no_match. intros p Hp.
    pose proof (H it p (or_introl eq_refl) Hp) as Hr.
    unfold references in Hr. rewrite Eo in Hr.
    unfold id_is. rewrite N.eqb_sym. exact Hr. }
  rewrite Hit. apply IH. intros it' p Hin Hp. apply H; [right; exact Hin | exact Hp].
Qed.

Lemma checkout_of_orphan_rows_witness :
  fst (checkout (CheckoutRequest.mk "u1") Sample2.db_orphans)
  = inr (OkOrder (oid_str 4%N))
  /\ product (snd (checkout (CheckoutRequest.mk "u1") Sample2.db_orphans))
     = product Sample2.db_orphans.
Proof.
  apply (checkout_of_orphan_rows (CheckoutRequest.mk "u1") Sample2.db_orphans).
  - vm_compute. discriminate.
  - intros it p Hit Hp. simpl in Hit, Hp.
    destruct Hit as [<-|[<-|[]]]; destruct Hp as [<-|[<-|[]]]; reflexivity.
Defined.

End CompositionSpec.

(** ** The catalog over time *)

Module CatalogLifeSpec.
Import QueryFacts StoreFacts.

(** X20: a product created under a new slug is found again:
    [get_inventory] for its slug answers with the [inventory] and
    [in_stock] it was created with. *)
Theorem create_then_get_inventory (p : Product.t) (d : DB) :
  (forall q, In q (product d) -> ProductDoc.slug q <> Product.slug p) ->
  get_inventory (Product.slug p) (snd (create_product_endpoint p d))
  = (inr (Inventory (Product.inventory p) (Product.in_stock p)),
     snd (create_product_endpoint p d)).
Proof.
  intros Hnew. pose proof (find_slug_none _ _ Hnew) as Hf.
  rewrite create_product_run, Hf. cbn [snd].
  rewrite get_inventory_run. cbn [product].
  rewrite (find_app_none _ _ _ Hf). cbn [List.find]. unfold slug_is at 1.
  cbn [ProductDoc.of_model ProductDoc.slug]. rewrite String.eqb_refl.
  reflexivity.
Qed.

Lemma create_then_get_inventory_witness :
  fst (get_inventory "case-y2"
         (snd (create_product_endpoint Sample.case_y2
                 (mkDB [ProductDoc.of_model 0%N Sample.pencil] [] [] [] 1%N))))
  = inr (Inventory 100%Z true).
Proof.
  refine (f_equal fst
            (create_then_get_inventory Sample.case_y2
               (mkDB [ProductDoc.of_model 0%N Sample.pencil] [] [] [] 1%N) _)).
  intros q [<-|[]]. discriminate.
Defined.

(** X21: of two creations under one slug the second always fails with
    "Slug already exists" and changes nothing, whether the first one
    inserted the product or found the slug taken. *)
Theorem second_create_conflicts (p p' : Product.t) (d : DB) :
  Product.slug p' = Product.slug p ->
  create_product_endpoint p' (snd (create_product_endpoint p d))
  = (inl (HTTPException 400 "Slug already exists"),
     snd (create_product_endpoint p d)).
Proof.
  intros Hs. rewrite (create_product_run p d).
  destruct (List.find (slug_is (Product.slug p)) (product d)) as [q|] eqn:Ef; cbn [snd].
  - rewrite create_product_run, Hs, Ef. reflexivity.
  - rewrite create_product_run. cbn [product]. rewrite Hs, (find_app_none _ _ _ Ef).
    cbn [List.find]. unfold slug_is at 1.
    cbn [ProductDoc.of_model ProductDoc.slug]. rewrite String.eqb_refl. reflexivity.
Qed.

Lemma second_create_conflicts_witness :
  fst (create_product_endpoint
         (Product.mk "pencil-x1" "Another pencil" "Same slug" 1%float [] [] [] [] false 0%Z)
         (snd (create_product_endpoint Sample.pencil App.empty_db)))
  = inl (HTTPException 400 "Slug already exists").
Proof.
  exact (f_equal fst
           (second_create_conflicts Sample.pencil
              (Product.mk "pencil-x1" "Another pencil" "Same slug" 1%float
                 [] [] [] [] false 0%Z)
              App.empty_db eq_refl)).
Defined.

(** X22: no request ever updates [in_stock].  Once [get_inventory]
    answers for a slug, it answers for that slug after every sequence of
    requests, and with the same [in_stock]: sales change the count it
    reports, never the flag. *)
Theorem in_stock_is_never_updated
  (reqs : list Api.request) (d : DB) (slug : string) (inv : Z) (stocked : bool) :
  get_inventory slug d = (inr (Inventory inv stocked), d) ->
  exists inv',
    get_inventory slug (Api.serve reqs d)
    = (inr (Inventory inv' stocked), Api.serve reqs d).
Proof.
  rewrite !get_inventory_run.
  destruct (List.find (slug_is slug) (product d)) as [prod|] eqn:Ef; [|discriminate].
  intros H. injection H as _ Hst.
  destruct (serve_products_grow reqs d) as [ps Hp].
  assert (Hfz : List.find (slug_is slug) (map frozen (product (Api.serve reqs d)))
                = Some (frozen prod)).
  { rewrite Hp. apply find_app_some. rewrite find_slug_frozen, Ef. reflexivity. }
  rewrite find_slug_frozen in Hfz.
  destruct (List.find (slug_is slug) (product (Api.serve reqs d))) as [prod'|];
    [|discriminate].
  cbn [option_map] in Hfz.
  apply (f_equal (option_map ProductDoc.in_stock)) in Hfz. cbn in Hfz.
  injection Hfz as Hfz.
  rewrite Hfz, Hst. eexists. reflexivity.
Qed.

Lemma in_stock_is_never_updated_witness :
  exists inv',
    get_inventory "pencil-x1"
      (Api.serve [Api.Core (App.PostCheckout (CheckoutRequest.mk "u1"))] Sample.db_cart)
    = (inr (Inventory inv' true),
       Api.serve [Api.Core (App.PostCheckout (CheckoutRequest.mk "u1"))] Sample.db_cart).
Proof.
  apply (in_stock_is_never_updated
           [Api.Core (App.PostCheckout (CheckoutRequest.mk "u1"))]
           Sample.db_cart "pencil-x1" 100%Z true).
  reflexivity.
Defined.

End CatalogLifeSpec.
